(** * Olist e-commerce dashboard: the load-and-join pipeline, the date-range
    filter and the per-page aggregation queries of [app.py].

    Tables are lists of records (a pandas DataFrame is an ordered sequence of
    rows); a nullable cell is an [option] ([None] stands for NaN / NaT).
    Timestamps are [datetime64[ns]] values, i.e. integers counting
    nanoseconds since 1970-01-01T00:00; calendar dates are day numbers
    counted from the same origin.  Prices and other float columns are
    rationals: rounding of float64 arithmetic is not modelled.

    Key and measure columns read from the source files ([order_id],
    [product_id], [customer_id], [price], ...) are populated; nulls arise
    where the data set has them ([order_delivered_customer_date],
    [product_category_name], timestamps) and on the right-hand side of the
    left joins. *)

From Stdlib Require Import ZArith QArith String Bool Lia.
From Stdlib Require Import List Permutation Sorted.
Import ListNotations.

Open Scope Z_scope.

(* ------------------------------------------------------------------ *)
(** ** Column keys *)

(** Values usable as join or group-by keys: decidable equality and the
    order used when a group-by sorts its keys. *)
Class Key (K : Type) := {
  key_eqb : K -> K -> bool;
  key_leb : K -> K -> bool;
  key_eqb_spec : forall a b, reflect (a = b) (key_eqb a b)
}.

#[global] Instance string_Key : Key string :=
  {| key_eqb := String.eqb; key_leb := String.leb;
     key_eqb_spec := String.eqb_spec |}.

#[global] Instance Z_Key : Key Z :=
  {| key_eqb := Z.eqb; key_leb := Z.leb; key_eqb_spec := Z.eqb_spec |}.

(** Equality of nullable keys.  pandas matches a null key with a null key
    in [merge] and in [isin]. *)
Definition opt_eqb {K} `{Key K} (a b : option K) : bool :=
  match a, b with
  | Some x, Some y => key_eqb x y
  | None, None => true
  | _, _ => false
  end.

(* ------------------------------------------------------------------ *)
(** ** Timestamps and dates *)

Definition Timestamp := Z.
Definition Date := Z.

Definition NS_PER_HOUR : Z := 3600 * 1000000000.
Definition NS_PER_DAY : Z := 24 * NS_PER_HOUR.

(** [.dt.date]: the calendar day of a timestamp, time of day dropped. *)
Definition dt_date (t : Timestamp) : Date := t / NS_PER_DAY.

(** [.dt.hour] *)
Definition dt_hour (t : Timestamp) : Z := (t mod NS_PER_DAY) / NS_PER_HOUR.

Definition day_order : list string :=
  ["Monday"; "Tuesday"; "Wednesday"; "Thursday"; "Friday"; "Saturday";
   "Sunday"]%string.

(** [.dt.day_name()]: 1970-01-01 was a Thursday. *)
Definition dt_day_name (t : Timestamp) : string :=
  nth (Z.to_nat ((dt_date t + 3) mod 7)) day_order EmptyString.

(** Civil year and month of a day number (proleptic Gregorian calendar). *)
Definition civil_year_month (d : Date) : Z * Z :=
  let z := d + 719468 in
  let era := z / 146097 in
  let doe := z mod 146097 in
  let yoe := (doe - doe / 1460 + doe / 36524 - doe / 146096) / 365 in
  let doy := doe - (365 * yoe + yoe / 4 - yoe / 100) in
  let mp := (5 * doy + 2) / 153 in
  let m := if mp <? 10 then mp + 3 else mp - 9 in
  let y := yoe + era * 400 in
  (if m <=? 2 then y + 1 else y, m).

(** [.dt.year] *)
Definition dt_year (t : Timestamp) : Z := fst (civil_year_month (dt_date t)).

(** [.dt.to_period('M')]: the month bucket, as the number of months since
    1970-01 (the ordinal pandas stores in a monthly period). *)
Definition dt_to_period_M (t : Timestamp) : Z :=
  let '(y, m) := civil_year_month (dt_date t) in (y - 1970) * 12 + (m - 1).

(** Whole days of a time difference ([.dt.days] of a timedelta: the floor). *)
Definition timedelta_days (later earlier : Timestamp) : Z :=
  (later - earlier) / NS_PER_DAY.

(** Midnight of a day number, plus an offset inside the day. *)
Definition at_day (d : Date) (ns : Z) : Timestamp := d * NS_PER_DAY + ns.

(* ------------------------------------------------------------------ *)
(** ** Series reductions *)

Definition dropna {A} (l : list (option A)) : list A :=
  flat_map (fun c => match c with Some x => [x] | None => [] end) l.

Definition Qsum (l : list Q) : Q := fold_right Qplus 0%Q l.

(** [Series.sum()]: nulls are skipped, the empty sum is 0. *)
Definition sum_skipna (l : list (option Q)) : Q := Qsum (dropna l).

(** [Series.mean()]: nulls are skipped in numerator and denominator; the
    mean of nothing is NaN. *)
Definition mean_skipna (l : list (option Q)) : option Q :=
  match dropna l with
  | [] => None
  | xs => Some (Qsum xs / inject_Z (Z.of_nat (length xs)))%Q
  end.

(** First-appearance list of the distinct values. *)
Fixpoint unique {K} `{Key K} (l : list K) : list K :=
  match l with
  | [] => []
  | k :: t => k :: filter (fun k' => negb (key_eqb k k')) (unique t)
  end.

(** [Series.nunique()]: distinct non-null values. *)
Definition nunique {K} `{Key K} (l : list (option K)) : nat :=
  length (unique (dropna l)).

(** [Series.isin(values)] on one cell. *)
Definition isin {K} `{Key K} (values : list (option K)) (c : option K) : bool :=
  existsb (opt_eqb c) values.

(* ------------------------------------------------------------------ *)
(** ** Joins *)

(** [left.merge(right, on=key, how='left')]: every left row is kept, in
    order; it is paired with each right row whose key matches, or with
    nulls when none does. *)
Definition merge_left {L R K} `{Key K}
    (kl : L -> option K) (kr : R -> option K)
    (left : list L) (right : list R) : list (L * option R) :=
  flat_map
    (fun x =>
       match filter (fun y => opt_eqb (kl x) (kr y)) right with
       | [] => [(x, None)]
       | ms => map (fun y => (x, Some y)) ms
       end)
    left.

(** [left.merge(right, on=key)], the default inner join. *)
Definition merge_inner {L R K} `{Key K}
    (kl : L -> option K) (kr : R -> option K)
    (left : list L) (right : list R) : list (L * R) :=
  flat_map
    (fun x => map (fun y => (x, y))
                  (filter (fun y => opt_eqb (kl x) (kr y)) right))
    left.

(* ------------------------------------------------------------------ *)
(** ** Group-by *)

Fixpoint insert_key {K} `{Key K} (k : K) (l : list K) : list K :=
  match l with
  | [] => [k]
  | h :: t => if key_leb k h then k :: l else h :: insert_key k t
  end.

Definition sort_keys {K} `{Key K} (l : list K) : list K :=
  fold_right insert_key [] l.

(** The rows of one group. *)
Definition group {A K} `{Key K} (key : A -> option K) (k : K)
    (rows : list A) : list A :=
  filter (fun r => opt_eqb (key r) (Some k)) rows.

(** The group keys of [groupby(key)]: distinct, null keys dropped, sorted. *)
Definition group_keys {A K} `{Key K} (key : A -> option K)
    (rows : list A) : list K :=
  sort_keys (unique (dropna (map key rows))).

(** [groupby(key)[val].sum()] *)
Definition groupby_sum {A K} `{Key K} (key : A -> option K)
    (val : A -> option Q) (rows : list A) : list (K * Q) :=
  map (fun k => (k, sum_skipna (map val (group key k rows))))
      (group_keys key rows).

(** [groupby(key)[val].mean()] *)
Definition groupby_mean {A K} `{Key K} (key : A -> option K)
    (val : A -> option Q) (rows : list A) : list (K * option Q) :=
  map (fun k => (k, mean_skipna (map val (group key k rows))))
      (group_keys key rows).

(** Label lookup in a series with unique labels. *)
Fixpoint lookup {K V} `{Key K} (k : K) (s : list (K * V)) : option V :=
  match s with
  | [] => None
  | (k', v) :: t => if key_eqb k k' then Some v else lookup k t
  end.

(** [Series.reindex(idx)]: one slot per requested label, in the requested
    order; a label the series lacks gets a null value. *)
Definition reindex {K} `{Key K} (idx : list K) (s : list (K * Q))
    : list (K * option Q) :=
  map (fun k => (k, lookup k s)) idx.

(* ------------------------------------------------------------------ *)
(** ** Sorting by value *)

(** The argsort behind [sort_values(ascending=False)] and [value_counts].
    The source passes no [kind], so the library's default algorithm runs;
    what is known of it is that the result is a rearrangement of the input
    in non-increasing order of the sort value.  The order among equal
    values is left to the implementation. *)
Record Sorter : Type := {
  sort_desc : forall A : Type, (A -> Q) -> list A -> list A;
  sort_desc_perm : forall A (f : A -> Q) l, Permutation (sort_desc A f l) l;
  sort_desc_sorted : forall A (f : A -> Q) l,
      StronglySorted (fun x y => (f y <= f x)%Q) (sort_desc A f l)
}.

Definition notnull {A} (c : option A) : bool :=
  match c with Some _ => true | None => false end.

Definition or_zero (c : option Q) : Q :=
  match c with Some q => q | None => 0%Q end.

(** [sort_values(ascending=False)]: nulls go last, in their original
    order. *)
Definition sort_values_desc (S : Sorter) {A} (val : A -> option Q)
    (l : list A) : list A :=
  sort_desc S A (fun a => or_zero (val a)) (filter (fun a => notnull (val a)) l)
  ++ filter (fun a => negb (notnull (val a))) l.

(** Number of cells equal to [k]. *)
Definition count_eq {K} `{Key K} (k : K) (col : list (option K)) : Z :=
  Z.of_nat (length (filter (fun c => opt_eqb c (Some k)) col)).

(** [Series.value_counts()]: one entry per distinct non-null value with its
    number of occurrences, most frequent first. *)
Definition value_counts (S : Sorter) {K} `{Key K} (col : list (option K))
    : list (K * Z) :=
  sort_desc S _ (fun e => inject_Z (snd e))
    (map (fun k => (k, count_eq k col)) (unique (dropna col))).

Fixpoint insert_by_key {K V} `{Key K} (e : K * V) (l : list (K * V))
    : list (K * V) :=
  match l with
  | [] => [e]
  | h :: t => if key_leb (fst e) (fst h) then e :: l else h :: insert_by_key e t
  end.

(** [Series.sort_index()] on a series whose labels are distinct. *)
Definition sort_index {K V} `{Key K} (s : list (K * V)) : list (K * V) :=
  fold_right insert_by_key [] s.

(* ------------------------------------------------------------------ *)
(** ** Source tables *)

Module Orders.
Record row := {
  order_id : string;
  customer_id : string;
  order_status : string;
  order_purchase_timestamp : option Timestamp;
  order_delivered_customer_date : option Timestamp
}.
End Orders.

Module Items.
Record row := {
  order_id : string;
  order_item_id : Z;
  product_id : string;
  price : Q;
  freight_value : Q
}.
End Items.

Module Products.
Record row := {
  product_id : string;
  product_category_name : option string;
  product_weight_g : option Q
}.
End Products.

Module Translation.
Record row := {
  product_category_name : option string;
  product_category_name_english : option string
}.
End Translation.

Module Customers.
Record row := {
  customer_id : string;
  customer_city : string;
  customer_state : string
}.
End Customers.

Module Reviews.
Record row := {
  review_id : string;
  order_id : string;
  review_score : Z;
  review_creation_date : option Timestamp
}.
End Reviews.

Module Payments.
Record row := {
  order_id : string;
  payment_sequential : Z;
  payment_type : string;
  payment_installments : Z;
  payment_value : Q
}.
End Payments.

(** A row of [products] after step 2 of [load_data]: the product columns
    plus the translated category. *)
Module ProductsT.
Record row := {
  base : Products.row;
  product_category_name_english : option string
}.
Definition product_id (p : row) : string := Products.product_id (base p).
Definition product_category_name (p : row) : option string :=
  Products.product_category_name (base p).
Definition product_weight_g (p : row) : option Q :=
  Products.product_weight_g (base p).
End ProductsT.

(** A row of [master_df]: the order columns, and the item, product and
    customer columns when the left joins found a partner. *)
Module Fact.
Record row := {
  order : Orders.row;
  item : option Items.row;
  product : option ProductsT.row;
  customer : option Customers.row
}.
Definition order_id (r : row) : string := Orders.order_id (order r).
Definition order_purchase_timestamp (r : row) : option Timestamp :=
  Orders.order_purchase_timestamp (order r).
Definition price (r : row) : option Q := option_map Items.price (item r).
Definition freight_value (r : row) : option Q :=
  option_map Items.freight_value (item r).
Definition product_category_name_english (r : row) : option string :=
  match product r with
  | Some p => ProductsT.product_category_name_english p
  | None => None
  end.
Definition customer_state (r : row) : option string :=
  option_map Customers.customer_state (customer r).
Definition customer_city (r : row) : option string :=
  option_map Customers.customer_city (customer r).
(** The calendar columns added at the end of [load_data]. *)
Definition month_year (r : row) : option Z :=
  option_map dt_to_period_M (order_purchase_timestamp r).
Definition year (r : row) : option Z :=
  option_map dt_year (order_purchase_timestamp r).
Definition day_of_week (r : row) : option string :=
  option_map dt_day_name (order_purchase_timestamp r).
Definition hour (r : row) : option Z :=
  option_map dt_hour (order_purchase_timestamp r).
End Fact.

(* ------------------------------------------------------------------ *)
(** ** [load_data] *)

(** [Series.fillna(other)] on one cell. *)
Definition fillna {A} (c other : option A) : option A :=
  match c with Some x => Some x | None => other end.

(** Step 2 of [load_data]: left join of the products with the category
    translation, then the English name falls back to the raw name. *)
Definition translate_products (products : list Products.row)
    (category_translation : list Translation.row) : list ProductsT.row :=
  map (fun pt : Products.row * option Translation.row =>
         let (p, t) := pt in
         {| ProductsT.base := p;
            ProductsT.product_category_name_english :=
              fillna
                (match t with
                 | Some t' => Translation.product_category_name_english t'
                 | None => None
                 end)
                (Products.product_category_name p) |})
      (merge_left Products.product_category_name
                  Translation.product_category_name
                  products category_translation).

(** [orders.merge(items, on='order_id', how='left')] *)
Definition order_items (orders : list Orders.row) (items : list Items.row)
    : list (Orders.row * option Items.row) :=
  merge_left (fun o => Some (Orders.order_id o))
             (fun i => Some (Items.order_id i)) orders items.

(** Step 3 of [load_data]: orders, then items, products and customers. *)
Definition build_master_df (orders : list Orders.row) (items : list Items.row)
    (products : list ProductsT.row) (customers : list Customers.row)
    : list Fact.row :=
  map (fun x : Orders.row * option Items.row * option ProductsT.row
               * option Customers.row =>
         let '(o, i, p, c) := x in
         {| Fact.order := o; Fact.item := i; Fact.product := p;
            Fact.customer := c |})
      (merge_left
         (fun oip : Orders.row * option Items.row * option ProductsT.row =>
            Some (Orders.customer_id (fst (fst oip))))
         (fun c => Some (Customers.customer_id c))
         (merge_left
            (fun oi : Orders.row * option Items.row =>
               option_map Items.product_id (snd oi))
            (fun p => Some (ProductsT.product_id p))
            (order_items orders items) products)
         customers).

(** The tables read from the source files, dates already parsed. *)
Record RawTables := {
  raw_orders : list Orders.row;
  raw_items : list Items.row;
  raw_products : list Products.row;
  raw_payments : list Payments.row;
  raw_reviews : list Reviews.row;
  raw_customers : list Customers.row;
  raw_category_translation : list Translation.row
}.

(** The dictionary [load_data] returns. *)
Record Data := {
  orders : list Orders.row;
  items : list Items.row;
  master_df : list Fact.row;
  reviews : list Reviews.row;
  payments : list Payments.row;
  products : list ProductsT.row
}.

Definition load_data (raw : RawTables) : Data :=
  let products := translate_products (raw_products raw)
                                     (raw_category_translation raw) in
  {| orders := raw_orders raw;
     items := raw_items raw;
     master_df := build_master_df (raw_orders raw) (raw_items raw) products
                                  (raw_customers raw);
     reviews := raw_reviews raw;
     payments := raw_payments raw;
     products := products |}.

(* ------------------------------------------------------------------ *)
(** ** The date-range filter *)

(** [(ts.dt.date >= start_date) & (ts.dt.date <= end_date)]; a null
    timestamp compares false. *)
Definition in_date_range (start_date end_date : Date)
    (ts : option Timestamp) : bool :=
  match ts with
  | Some t => (start_date <=? dt_date t) && (dt_date t <=? end_date)
  | None => false
  end.

Definition filtered_df (master_df : list Fact.row)
    (start_date end_date : Date) : list Fact.row :=
  filter (fun r => in_date_range start_date end_date
                     (Fact.order_purchase_timestamp r)) master_df.

Definition filtered_orders (orders : list Orders.row)
    (start_date end_date : Date) : list Orders.row :=
  filter (fun o => in_date_range start_date end_date
                     (Orders.order_purchase_timestamp o)) orders.

(* ------------------------------------------------------------------ *)
(** ** Page queries

    Each query takes the filtered tables it reads.  None of them has an
    error path on these tables: the only guarded operation is the division
    in [avg_order_value]. *)

(** [timedelta.dt.days] of delivery minus purchase; null when either end
    is. *)
Definition delivery_days (o : Orders.row) : option Z :=
  match Orders.order_delivered_customer_date o,
        Orders.order_purchase_timestamp o with
  | Some d, Some p => Some (timedelta_days d p)
  | _, _ => None
  end.

(** *** Overview *)

Definition total_revenue (filtered_df : list Fact.row) : Q :=
  sum_skipna (map Fact.price filtered_df).

Definition total_orders (filtered_orders : list Orders.row) : nat :=
  nunique (map (fun o => Some (Orders.order_id o)) filtered_orders).

Definition avg_order_value (filtered_df : list Fact.row)
    (filtered_orders : list Orders.row) : Q :=
  if (0 <? total_orders filtered_orders)%nat
  then (total_revenue filtered_df
        / inject_Z (Z.of_nat (total_orders filtered_orders)))%Q
  else 0%Q.

Definition avg_delivery_days (filtered_orders : list Orders.row) : option Q :=
  mean_skipna (map (fun o => option_map inject_Z (delivery_days o))
                   filtered_orders).

Definition sales_over_time (filtered_df : list Fact.row) : list (Z * Q) :=
  groupby_sum Fact.month_year Fact.price filtered_df.

(** *** Sales analysis *)

Definition sales_by_day (filtered_df : list Fact.row)
    : list (string * option Q) :=
  reindex day_order (groupby_sum Fact.day_of_week Fact.price filtered_df).

Definition sales_by_hour (filtered_df : list Fact.row) : list (Z * Q) :=
  groupby_sum Fact.hour Fact.price filtered_df.

(** *** Product insights *)

Definition category_sales (S : Sorter) (filtered_df : list Fact.row)
    (top_n : nat) : list (string * Q) :=
  firstn top_n
    (sort_values_desc S (fun e : string * Q => Some (snd e))
       (groupby_sum Fact.product_category_name_english Fact.price
                    filtered_df)).

(** *** Customer demographics *)

Definition state_counts (S : Sorter) (filtered_df : list Fact.row)
    : list (string * Z) :=
  firstn 10 (value_counts S (map Fact.customer_state filtered_df)).

Definition city_counts (S : Sorter) (filtered_df : list Fact.row)
    : list (string * Z) :=
  firstn 10 (value_counts S (map Fact.customer_city filtered_df)).

(** *** Review analysis *)

Definition relevant_order_ids (filtered_orders : list Orders.row)
    : list (option string) :=
  map (fun o => Some (Orders.order_id o)) filtered_orders.

Definition relevant_reviews (reviews : list Reviews.row)
    (filtered_orders : list Orders.row) : list Reviews.row :=
  filter (fun r => isin (relevant_order_ids filtered_orders)
                        (Some (Reviews.order_id r))) reviews.

Definition review_dist (S : Sorter) (reviews : list Reviews.row)
    (filtered_orders : list Orders.row) : list (Z * Z) :=
  sort_index
    (value_counts S
       (map (fun r => Some (Reviews.review_score r))
            (relevant_reviews reviews filtered_orders))).

(** [reviews_orders['delivery_days'] < 50]; a null compares false. *)
Definition lt_50 (d : option Z) : bool :=
  match d with Some n => n <? 50 | None => false end.

Definition reviews_orders (reviews : list Reviews.row)
    (filtered_orders : list Orders.row) : list (Reviews.row * Orders.row) :=
  filter (fun ro => lt_50 (delivery_days (snd ro)))
    (merge_inner (fun r => Some (Reviews.order_id r))
                 (fun o => Some (Orders.order_id o))
                 (relevant_reviews reviews filtered_orders) filtered_orders).

(** *** Payment analysis *)

Definition relevant_payments (payments : list Payments.row)
    (filtered_orders : list Orders.row) : list Payments.row :=
  filter (fun p => isin (relevant_order_ids filtered_orders)
                        (Some (Payments.order_id p))) payments.

Definition payment_counts (S : Sorter) (payments : list Payments.row)
    (filtered_orders : list Orders.row) : list (string * Z) :=
  value_counts S
    (map (fun p => Some (Payments.payment_type p))
         (relevant_payments payments filtered_orders)).

Definition safe_payments (payments : list Payments.row)
    (filtered_orders : list Orders.row) : list Payments.row :=
  filter (fun p => match Payments.payment_value p ?= 1000 with
                   | Lt => true | _ => false end%Q)
         (relevant_payments payments filtered_orders).

(** *** Delivery analysis *)

Definition df_delivery (filtered_orders : list Orders.row)
    : list Orders.row :=
  filter (fun o => notnull (delivery_days o)) filtered_orders.

Definition items_products (items : list Items.row)
    (products : list ProductsT.row)
    : list (Items.row * option ProductsT.row) :=
  merge_left (fun i => Some (Items.product_id i))
             (fun p => Some (ProductsT.product_id p)) items products.

Definition relevant_items (items : list Items.row)
    (products : list ProductsT.row) (filtered_orders : list Orders.row)
    : list (Items.row * option ProductsT.row) :=
  filter (fun ip => isin (relevant_order_ids filtered_orders)
                         (Some (Items.order_id (fst ip))))
         (items_products items products).

Definition state_freight (S : Sorter) (filtered_df : list Fact.row)
    : list (string * option Q) :=
  sort_values_desc S (fun e : string * option Q => snd e)
    (groupby_mean Fact.customer_state Fact.freight_value filtered_df).

(* ------------------------------------------------------------------ *)
(** ** Sample tables *)

Definition day_2018_01_05 : Date := 17536.

Definition mk_order (id : string) (purchase delivered : option Timestamp)
    : Orders.row :=
  {| Orders.order_id := id; Orders.customer_id := "c1";
     Orders.order_status := "delivered";
     Orders.order_purchase_timestamp := purchase;
     Orders.order_delivered_customer_date := delivered |}.

Definition mk_item (oid pid : string) (price : Q) : Items.row :=
  {| Items.order_id := oid; Items.order_item_id := 1;
     Items.product_id := pid; Items.price := price;
     Items.freight_value := 0%Q |}.

Definition mk_product (pid : string) (category : option string)
    : Products.row :=
  {| Products.product_id := pid; Products.product_category_name := category;
     Products.product_weight_g := None |}.

Definition mk_review (rid oid : string) (score : Z)
    (created : option Timestamp) : Reviews.row :=
  {| Reviews.review_id := rid; Reviews.order_id := oid;
     Reviews.review_score := score; Reviews.review_creation_date := created |}.

(** One order, placed on Friday 2018-01-05 at 10:00, that has no item. *)
Definition order_o1 : Orders.row :=
  mk_order "o1" (Some (at_day day_2018_01_05 (10 * NS_PER_HOUR))) None.

Definition raw_itemless : RawTables :=
  {| raw_orders := [order_o1]; raw_items := []; raw_products := [];
     raw_payments := []; raw_reviews := []; raw_customers := [];
     raw_category_translation := [] |}.

(** One order with one item of a product filed under [category]. *)
Definition raw_one_sale (category : option string) (price : Q) : RawTables :=
  {| raw_orders := [order_o1]; raw_items := [mk_item "o1" "p1" price];
     raw_products := [mk_product "p1" category];
     raw_payments := []; raw_reviews := []; raw_customers := [];
     raw_category_translation := [] |}.

(** Two orders of the same day, one item each, categories [a] and [b],
    both priced 10. *)
Definition raw_tie : RawTables :=
  {| raw_orders := [order_o1;
                    mk_order "o2" (Some (at_day day_2018_01_05 0)) None];
     raw_items := [mk_item "o1" "p1" 10%Q; mk_item "o2" "p2" 10%Q];
     raw_products := [mk_product "p1" (Some "a"%string);
                      mk_product "p2" (Some "b"%string)];
     raw_payments := []; raw_reviews := []; raw_customers := [];
     raw_category_translation := [] |}.

(** An order recorded as delivered the day before it was placed. *)
Definition order_early : Orders.row :=
  mk_order "o9" (Some (at_day day_2018_01_05 0))
           (Some (at_day (day_2018_01_05 - 1) 0)).

(** The scenario of the specification: orders of 2018-01-05, 2018-01-10 and
    2018-02-01 with item prices 100, 50 and 75, filtered to January 2018. *)
Definition raw_scenario : RawTables :=
  {| raw_orders := [mk_order "o1" (Some (at_day 17536 0)) None;
                    mk_order "o2" (Some (at_day 17541 0)) None;
                    mk_order "o3" (Some (at_day 17563 0)) None];
     raw_items := [mk_item "o1" "p1" 100%Q; mk_item "o2" "p1" 50%Q;
                   mk_item "o3" "p1" 75%Q];
     raw_products := []; raw_payments := []; raw_reviews := [];
     raw_customers := []; raw_category_translation := [] |}.

(* ------------------------------------------------------------------ *)
(** ** Definitions used to state the properties *)

(** Number of right rows matching a left row. *)
Definition matches {L R K} `{Key K} (kl : L -> option K) (kr : R -> option K)
    (right : list R) (x : L) : nat :=
  length (filter (fun y => opt_eqb (kl x) (kr y)) right).

(** The rule in the specification's words: the purchase timestamp is set
    and its date part lies between the two bounds, both included. *)
Definition date_within (start_date end_date : Date)
    (ts : option Timestamp) : Prop :=
  exists t, ts = Some t /\ start_date <= dt_date t <= end_date.

(** The total revenue in the specification's words: the item prices of the
    fact rows added up row by row; a row without item adds nothing. *)
Fixpoint item_price_sum (rows : list Fact.row) : Q :=
  match rows with
  | [] => 0%Q
  | r :: t =>
      match Fact.item r with
      | Some i => (Items.price i + item_price_sum t)%Q
      | None => item_price_sum t
      end
  end.

(** [ids] lists the order ids of the orders, each of them once. *)
Definition distinct_order_ids (fo : list Orders.row) (ids : list string)
    : Prop :=
  NoDup ids
  /\ forall id, In id ids <-> exists o, In o fo /\ Orders.order_id o = id.

Definition is_delivered (o : Orders.row) : bool :=
  notnull (Orders.order_delivered_customer_date o).

Definition ts_or_epoch (ts : option Timestamp) : Timestamp :=
  match ts with Some t => t | None => 0 end.

(** One day, 86 400 seconds, in nanoseconds. *)
Definition ONE_DAY_NS : Z := 86400000000000.

(** Whole days from purchase to delivery of a delivered order, in the
    specification's words: the number of complete days that fit in the
    time between the two timestamps. *)
Definition days_to_deliver (o : Orders.row) : Z :=
  (ts_or_epoch (Orders.order_delivered_customer_date o)
   - ts_or_epoch (Orders.order_purchase_timestamp o)) / ONE_DAY_NS.

(** The mean in the specification's words: keep the delivered orders, then
    divide the sum of their whole delivery days by their number. *)
Definition mean_delivery_days_spec (fo : list Orders.row) : option Q :=
  match filter is_delivered fo with
  | [] => None
  | ds => Some (Qsum (map (fun o => inject_Z (days_to_deliver o)) ds)
                / inject_Z (Z.of_nat (length ds)))%Q
  end.

Definition has_purchase (o : Orders.row) : Prop :=
  Orders.order_purchase_timestamp o <> None.

(** The order of a review lies in the filtered order set. *)
Definition order_in (fo : list Orders.row) (oid : string) : bool :=
  existsb (fun o => String.eqb oid (Orders.order_id o)) fo.

(** Number of reviews with score [s] whose order is in the filtered set. *)
Definition linked_review_count (reviews : list Reviews.row)
    (fo : list Orders.row) (s : Z) : Z :=
  Z.of_nat (length (filter (fun r => (Reviews.review_score r =? s)
                                     && order_in fo (Reviews.order_id r))
                           reviews)).

(** The value shown for one weekday. *)
Definition weekday_slot (fdf : list Fact.row) (day : string) : option Q :=
  match group Fact.day_of_week day fdf with
  | [] => None
  | g => Some (sum_skipna (map Fact.price g))
  end.

(** The revenue of each category that occurs, nulls left out. *)
Definition category_revenue (fdf : list Fact.row) : list (string * Q) :=
  groupby_sum Fact.product_category_name_english Fact.price fdf.

(** All slots of a table are zero. *)
Definition zero_valued (s : list (string * option Q)) : Prop :=
  Forall (fun e => exists z, snd e = Some z /\ (z == 0)%Q) s.

(* ------------------------------------------------------------------ *)
(** ** The default date range of the sidebar *)

(** [Series.min()] and [Series.max()] of a timestamp column: nulls are
    skipped, and the result is null when nothing is left. *)
Definition series_min (l : list (option Timestamp)) : option Timestamp :=
  match dropna l with
  | [] => None
  | x :: t => Some (fold_right Z.min x t)
  end.

Definition series_max (l : list (option Timestamp)) : option Timestamp :=
  match dropna l with
  | [] => None
  | x :: t => Some (fold_right Z.max x t)
  end.

(** [master_df['order_purchase_timestamp'].min().date()] *)
Definition min_date (master_df : list Fact.row) : option Date :=
  option_map dt_date
    (series_min (map Fact.order_purchase_timestamp master_df)).

(** [master_df['order_purchase_timestamp'].max().date()] *)
Definition max_date (master_df : list Fact.row) : option Date :=
  option_map dt_date
    (series_max (map Fact.order_purchase_timestamp master_df)).

(* ------------------------------------------------------------------ *)
(** ** More sample tables and auxiliary sums *)

Definition Zsum (l : list Z) : Z := fold_right Z.add 0 l.

(** Two orders of customer [c1] with three items of two translated
    products. *)
Definition raw_full : RawTables :=
  {| raw_orders := [order_o1;
                    mk_order "o2" (Some (at_day day_2018_01_05 0)) None];
     raw_items := [mk_item "o1" "p1" 10%Q; mk_item "o1" "p2" 5%Q;
                   mk_item "o2" "p1" 7%Q];
     raw_products := [mk_product "p1" (Some "beleza_saude"%string);
                      mk_product "p2" (Some "pet_shop"%string)];
     raw_payments := []; raw_reviews := [];
     raw_customers :=
       [ {| Customers.customer_id := "c1";
            Customers.customer_city := "sao paulo";
            Customers.customer_state := "SP" |} ];
     raw_category_translation :=
       [ {| Translation.product_category_name := Some "beleza_saude"%string;
            Translation.product_category_name_english :=
              Some "health_beauty"%string |} ] |}.

(** One product of category [beleza_saude] and its translation entry. *)
Definition raw_translated : RawTables :=
  {| raw_orders := [order_o1]; raw_items := [mk_item "o1" "p1" 10%Q];
     raw_products := [mk_product "p1" (Some "beleza_saude"%string)];
     raw_payments := []; raw_reviews := []; raw_customers := [];
     raw_category_translation :=
       [ {| Translation.product_category_name := Some "beleza_saude"%string;
            Translation.product_category_name_english :=
              Some "health_beauty"%string |} ] |}.

(* ------------------------------------------------------------------ *)
(** ** The joins of [load_data], step by step, and key uniqueness *)

(** The three joins of [build_master_df], one after the other. *)
Definition with_products (orders : list Orders.row) (items : list Items.row)
    (products : list ProductsT.row)
    : list (Orders.row * option Items.row * option ProductsT.row) :=
  merge_left
    (fun oi : Orders.row * option Items.row =>
       option_map Items.product_id (snd oi))
    (fun p => Some (ProductsT.product_id p))
    (order_items orders items) products.

Definition with_customers (orders : list Orders.row) (items : list Items.row)
    (products : list ProductsT.row) (customers : list Customers.row)
    : list (Orders.row * option Items.row * option ProductsT.row
            * option Customers.row) :=
  merge_left
    (fun oip : Orders.row * option Items.row * option ProductsT.row =>
       Some (Orders.customer_id (fst (fst oip))))
    (fun c => Some (Customers.customer_id c))
    (with_products orders items products) customers.

Definition unique_product_ids (products : list ProductsT.row) : Prop :=
  forall pid,
    (length (filter (fun p => String.eqb pid (ProductsT.product_id p))
                    products) <= 1)%nat.

Definition unique_customer_ids (customers : list Customers.row) : Prop :=
  forall cid,
    (length (filter (fun c => String.eqb cid (Customers.customer_id c))
                    customers) <= 1)%nat.

(** The translation entries of a raw category name. *)
Definition translations_of (category_translation : list Translation.row)
    (name : option string) : list Translation.row :=
  filter (fun t => opt_eqb name (Translation.product_category_name t))
         category_translation.

(** Number of items of an order. *)
Definition items_of (items : list Items.row) (o : Orders.row) : nat :=
  length (filter (fun i => String.eqb (Orders.order_id o) (Items.order_id i))
                 items).

(* ------------------------------------------------------------------ *)
(** ** A sorting algorithm meeting the [Sorter] contract

    An insertion sort by decreasing value; it shows that the contract can
    be met and serves to evaluate the queries on sample tables. *)

Section InsertionSort.
Context {A : Type} (f : A -> Q).
(** [before x h]: the new element [x] is placed in front of [h]. *)
Variable before : Q -> Q -> bool.
Hypothesis before_true : forall a b, before a b = true -> (b <= a)%Q.
Hypothesis before_false : forall a b, before a b = false -> (a <= b)%Q.

Fixpoint insert_desc (x : A) (l : list A) : list A :=
  match l with
  | [] => [x]
  | h :: t => if before (f x) (f h) then x :: l else h :: insert_desc x t
  end.

Definition isort_desc (l : list A) : list A := fold_right insert_desc [] l.

Lemma insert_desc_perm x l : Permutation (insert_desc x l) (x :: l).
Proof.
  induction l as [|h t IH]; simpl; [reflexivity|].
  destruct (before (f x) (f h)); [reflexivity|].
  rewrite IH. apply perm_swap.
Qed.

Lemma isort_desc_perm l : Permutation (isort_desc l) l.
Proof.
  induction l as [|x t IH]; simpl; [constructor|].
  rewrite insert_desc_perm. now constructor.
Qed.

Lemma insert_desc_sorted x l :
  StronglySorted (fun a b => (f b <= f a)%Q) l ->
  StronglySorted (fun a b => (f b <= f a)%Q) (insert_desc x l).
Proof.
  induction 1 as [|h t Hs IH Hall]; simpl.
  - repeat constructor.
  - destruct (before (f x) (f h)) eqn:E.
    + constructor; [now constructor|].
      apply before_true in E. constructor; [exact E|].
      eapply Forall_impl; [|exact Hall]. intros b Hb. simpl in Hb.
      now apply Qle_trans with (f h).
    + constructor; [exact IH|].
      apply before_false in E.
      eapply Permutation_Forall;
        [apply Permutation_sym, insert_desc_perm|].
      now constructor.
Qed.

Lemma isort_desc_sorted l :
  StronglySorted (fun a b => (f b <= f a)%Q) (isort_desc l).
Proof.
  induction l as [|x t IH]; simpl; [constructor|].
  now apply insert_desc_sorted.
Qed.
End InsertionSort.

(** A value that is not smaller goes in front. *)
Definition before_stable (a b : Q) : bool := Qle_bool b a.

Lemma before_stable_true a b : before_stable a b = true -> (b <= a)%Q.
Proof. unfold before_stable. now rewrite Qle_bool_iff. Qed.

Lemma before_stable_false a b : before_stable a b = false -> (a <= b)%Q.
Proof.
  unfold before_stable. intros E.
  destruct (Qlt_le_dec a b) as [L|L]; [now apply Qlt_le_weak|].
  apply Qle_bool_iff in L. congruence.
Qed.

Definition stable_sorter : Sorter :=
  {| sort_desc := fun A f => isort_desc f before_stable;
     sort_desc_perm := fun A f =>
       isort_desc_perm f before_stable;
     sort_desc_sorted := fun A f =>
       isort_desc_sorted f before_stable before_stable_true
                         before_stable_false |}.

(* ------------------------------------------------------------------ *)
(** ** Calendar checks *)

Example day_name_2018_01_05 :
  dt_day_name (at_day day_2018_01_05 (10 * NS_PER_HOUR)) = "Friday"%string.
Proof. reflexivity. Qed.

Example year_month_2018_01_05 :
  civil_year_month day_2018_01_05 = (2018, 1).
Proof. reflexivity. Qed.

Example year_month_2018_02_01 :
  civil_year_month (day_2018_01_05 + 27) = (2018, 2).
Proof. reflexivity. Qed.

Example hour_2018_01_05 :
  dt_hour (at_day day_2018_01_05 (10 * NS_PER_HOUR)) = 10.
Proof. reflexivity. Qed.

Lemma NS_PER_DAY_pos : 0 < NS_PER_DAY.
Proof. reflexivity. Qed.

(** The date of a timestamp ignores the time of day. *)
Lemma dt_date_at_day d ns : 0 <= ns < NS_PER_DAY -> dt_date (at_day d ns) = d.
Proof.
  intros H. unfold dt_date, at_day.
  rewrite Z.add_comm, Z.div_add by (pose proof NS_PER_DAY_pos; lia).
  rewrite Z.div_small by exact H. reflexivity.
Qed.

(* ------------------------------------------------------------------ *)
(** ** The fact table: row counts *)

Lemma length_flat_map_sum {A B} (f : A -> list B) (l : list A) :
  length (flat_map f l) = list_sum (map (fun x => length (f x)) l).
Proof.
  induction l as [|x t IH]; simpl; [reflexivity|].
  now rewrite length_app, IH.
Qed.

(** A left join emits, for each left row, one row per match and one row
    when there is no match. *)
Lemma merge_left_length {L R K} `{Key K} (kl : L -> option K)
    (kr : R -> option K) (left : list L) (right : list R) :
  length (merge_left kl kr left right)
  = list_sum (map (fun x => Nat.max 1 (matches kl kr right x)) left).
Proof.
  unfold merge_left, matches. rewrite length_flat_map_sum.
  f_equal. apply map_ext. intros x.
  destruct (filter _ right) as [|m ms]; [reflexivity|].
  now rewrite length_map.
Qed.

Lemma list_sum_ones {A} (g : A -> nat) (l : list A) :
  (forall x, In x l -> g x = 1%nat) -> list_sum (map g l) = length l.
Proof.
  induction l as [|x t IH]; intros Hg; simpl; [reflexivity|].
  rewrite (Hg x (or_introl eq_refl)), IH; [reflexivity|].
  intros y Hy. apply Hg. now right.
Qed.

(** When no left row has two partners, a left join keeps the row count. *)
Lemma merge_left_length_unique {L R K} `{Key K} (kl : L -> option K)
    (kr : R -> option K) (left : list L) (right : list R) :
  (forall x, In x left -> (matches kl kr right x <= 1)%nat) ->
  length (merge_left kl kr left right) = length left.
Proof.
  intros Hu. rewrite merge_left_length. apply list_sum_ones.
  intros x Hx. specialize (Hu x Hx). lia.
Qed.

Lemma map_length_master orders items products customers :
  length (build_master_df orders items products customers)
  = length
      (merge_left
         (fun oip : Orders.row * option Items.row * option ProductsT.row =>
            Some (Orders.customer_id (fst (fst oip))))
         (fun c => Some (Customers.customer_id c))
         (merge_left
            (fun oi : Orders.row * option Items.row =>
               option_map Items.product_id (snd oi))
            (fun p => Some (ProductsT.product_id p))
            (order_items orders items) products)
         customers).
Proof. unfold build_master_df. now rewrite length_map. Qed.

(** With unique product and customer keys the fact table has one row per
    (order, item) pair and one more row for each order without items. *)
Lemma master_df_length orders items products customers :
  (forall pid, (length (filter (fun p => String.eqb pid (ProductsT.product_id p))
                               products) <= 1)%nat) ->
  (forall cid, (length (filter (fun c => String.eqb cid
                                            (Customers.customer_id c))
                               customers) <= 1)%nat) ->
  length (build_master_df orders items products customers)
  = list_sum
      (map (fun o => Nat.max 1
                       (length (filter
                                  (fun i => String.eqb (Orders.order_id o)
                                                       (Items.order_id i))
                                  items)))
           orders).
Proof.
  intros Hp Hc. rewrite map_length_master.
  rewrite merge_left_length_unique.
  - rewrite merge_left_length_unique.
    + unfold order_items. now rewrite merge_left_length.
    + intros [o [i|]] _; unfold matches; simpl.
      * apply Hp.
      * clear. induction products as [|p t IH]; simpl; auto.
  - intros [[o i] p] _. unfold matches; simpl. apply Hc.
Qed.

(** C1, at an order without items: the items table is empty and the fact
    table still has one row, the order with null item columns; the row
    survives the date filter and is counted by the row-count queries.  An
    item whose order is not in the orders table yields no row. *)
Theorem master_df_itemless_order :
  length (items (load_data raw_itemless)) = 0%nat
  /\ master_df (load_data raw_itemless)
     = [ {| Fact.order := order_o1; Fact.item := None;
            Fact.product := None; Fact.customer := None |} ]
  /\ length (filtered_df (master_df (load_data raw_itemless))
                         day_2018_01_05 day_2018_01_05) = 1%nat
  /\ build_master_df [] [mk_item "o1" "p1" 10%Q] [] [] = [].
Proof. repeat split. Qed.

(* ------------------------------------------------------------------ *)
(** ** Category translation *)

Lemma opt_eqb_eq {K} `{Key K} (a b : option K) : opt_eqb a b = true <-> a = b.
Proof.
  destruct a as [x|], b as [y|]; simpl; try (split; congruence).
  destruct (key_eqb_spec x y); split; congruence.
Qed.

Lemma filter_nil_iff {A} (f : A -> bool) (l : list A) :
  filter f l = [] <-> forall x, In x l -> f x = false.
Proof.
  induction l as [|h t IH]; simpl.
  - split; [intros _ x []|reflexivity].
  - destruct (f h) eqn:E; split.
    + discriminate.
    + intros Hf. specialize (Hf h (or_introl eq_refl)). congruence.
    + intros Ht x [<-|Hx]; [exact E|]. now apply IH.
    + intros Hf. apply IH. intros x Hx. apply Hf. now right.
Qed.

(** The rows a left join emits for a left row without partner. *)
Lemma merge_left_unmatched {L R K} `{Key K} (kl : L -> option K)
    (kr : R -> option K) (left : list L) (right : list R) (x : L) :
  (forall y, In y right -> kr y <> kl x) ->
  forall r, In (x, r) (merge_left kl kr left right) <-> In x left /\ r = None.
Proof.
  intros Hno r. unfold merge_left. rewrite in_flat_map. split.
  - intros (x' & Hx' & Hin).
    destruct (filter _ right) as [|m ms] eqn:E.
    + destruct Hin as [[= -> <-]|[]]. now split.
    + apply in_map_iff in Hin. destruct Hin as (y & [= -> <-] & Hy).
      rewrite <- E in Hy. apply filter_In in Hy. destruct Hy as [Hy Hm].
      apply opt_eqb_eq in Hm. symmetry in Hm. now apply Hno in Hm.
    - intros [Hx ->]. exists x. split; [exact Hx|].
      replace (filter _ right) with (@nil R); [now left|].
      symmetry. apply filter_nil_iff. intros y Hy.
      destruct (opt_eqb (kl x) (kr y)) eqn:E; [|reflexivity].
      apply opt_eqb_eq in E. symmetry in E. now apply Hno in E.
Qed.

Lemma translate_products_app (l1 l2 : list Products.row)
    (category_translation : list Translation.row) :
  translate_products (l1 ++ l2) category_translation
  = translate_products l1 category_translation
    ++ translate_products l2 category_translation.
Proof.
  unfold translate_products, merge_left. now rewrite flat_map_app, map_app.
Qed.

(** Every row of the translated products comes from a product. *)
Lemma translate_products_from (l : list Products.row)
    (category_translation : list Translation.row) (q : ProductsT.row) :
  In q (translate_products l category_translation) ->
  In (ProductsT.base q) l.
Proof.
  unfold translate_products, merge_left. rewrite in_map_iff.
  intros ([p t] & <- & Hin). cbn [ProductsT.base].
  apply in_flat_map in Hin. destruct Hin as (x & Hx & Hin).
  destruct (filter _ category_translation) as [|m ms].
  - destruct Hin as [[= <- _]|[]]. exact Hx.
  - apply in_map_iff in Hin. destruct Hin as (y & [= <- _] & _). exact Hx.
Qed.

(** C6, as the code has it: a product row whose raw category has no entry
    in the translation table yields exactly one row of [load_data]'s
    products, at the place of the product row, with the English category
    equal to the raw category; the English category is null or empty
    exactly when the raw one is. *)
Theorem category_fallback (raw : RawTables) (p0 : Products.row) :
  In p0 (raw_products raw) ->
  (forall t, In t (raw_category_translation raw) ->
             Translation.product_category_name t
             <> Products.product_category_name p0) ->
  In {| ProductsT.base := p0;
        ProductsT.product_category_name_english :=
          Products.product_category_name p0 |}
     (products (load_data raw))
  /\ (forall p, In p (products (load_data raw)) ->
                ProductsT.base p = p0 ->
                ProductsT.product_category_name_english p
                = ProductsT.product_category_name p)
  /\ (forall before after,
        raw_products raw = before ++ p0 :: after ->
        products (load_data raw)
        = translate_products before (raw_category_translation raw)
          ++ {| ProductsT.base := p0;
                ProductsT.product_category_name_english :=
                  Products.product_category_name p0 |}
             :: translate_products after (raw_category_translation raw)
        /\ (forall q, In q (translate_products before
                                               (raw_category_translation raw))
                      -> In (ProductsT.base q) before)
        /\ (forall q, In q (translate_products after
                                               (raw_category_translation raw))
                      -> In (ProductsT.base q) after)).
Proof.
  intros Hin Hno. simpl.
  pose proof (merge_left_unmatched Products.product_category_name
                Translation.product_category_name (raw_products raw)
                (raw_category_translation raw) p0 Hno) as Hm.
  split; [|split].
  - unfold translate_products. apply in_map_iff. exists (p0, None). split.
    + simpl. now destruct (Products.product_category_name p0).
    + now apply Hm.
  - unfold translate_products. intros p Hp Hb. apply in_map_iff in Hp.
    destruct Hp as ([q t] & <- & Hqt). simpl in Hb. subst q.
    apply Hm in Hqt. destruct Hqt as [_ ->].
    unfold ProductsT.product_category_name. simpl.
    now destruct (Products.product_category_name p0).
  - intros before after Hsplit. split; [|split].
    + rewrite Hsplit.
      change (p0 :: after) with ([p0] ++ after).
      rewrite !translate_products_app. do 2 f_equal.
      unfold translate_products, merge_left. cbn [flat_map].
      replace (filter _ (raw_category_translation raw))
        with (@nil Translation.row).
      * simpl. now destruct (Products.product_category_name p0).
      * symmetry. apply filter_nil_iff. intros y Hy.
        destruct (opt_eqb (Products.product_category_name p0)
                          (Translation.product_category_name y)) eqn:E;
          [|reflexivity].
        apply opt_eqb_eq in E. symmetry in E. now apply Hno in E.
    + intros q. apply translate_products_from.
    + intros q. apply translate_products_from.
Qed.

Lemma category_fallback_witness :
  In (mk_product "p1" (Some "cool_stuff"%string))
     (raw_products (raw_one_sale (Some "cool_stuff"%string) 10%Q))
  /\ products (load_data (raw_one_sale (Some "cool_stuff"%string) 10%Q))
     = [ {| ProductsT.base := mk_product "p1" (Some "cool_stuff"%string);
            ProductsT.product_category_name_english :=
              Some "cool_stuff"%string |} ]
  /\ In {| ProductsT.base := mk_product "p1" (Some "cool_stuff"%string);
           ProductsT.product_category_name_english :=
             Some "cool_stuff"%string |}
        (products (load_data (raw_one_sale (Some "cool_stuff"%string) 10%Q))).
Proof.
  split; [now left|]. split; [reflexivity|].
  apply (category_fallback (raw_one_sale (Some "cool_stuff"%string) 10%Q)
                           (mk_product "p1" (Some "cool_stuff"%string))).
  - simpl. now left.
  - simpl. intros t [].
Defined.

(** C6 as stated fails: a product whose raw category is null has no
    translation entry and keeps a null English category. *)
Lemma category_fallback_null_stays_null :
  ~ (forall (raw : RawTables) (p : ProductsT.row),
       In p (products (load_data raw)) ->
       (forall t, In t (raw_category_translation raw) ->
                  Translation.product_category_name t
                  <> ProductsT.product_category_name p) ->
       ProductsT.product_category_name_english p
       = ProductsT.product_category_name p
       /\ ProductsT.product_category_name_english p <> None
       /\ ProductsT.product_category_name_english p <> Some EmptyString).
Proof.
  intros Hclaim.
  destruct (Hclaim (raw_one_sale None 10%Q)
                   {| ProductsT.base := mk_product "p1" None;
                      ProductsT.product_category_name_english := None |})
    as (_ & Hnull & _).
  - simpl. now left.
  - simpl. intros t [].
  - now apply Hnull.
Qed.

(* ------------------------------------------------------------------ *)
(** ** The date-range filter: inclusive bounds *)

Lemma in_date_range_spec start_date end_date ts :
  in_date_range start_date end_date ts = true
  <-> date_within start_date end_date ts.
Proof.
  unfold in_date_range, date_within. destruct ts as [t|].
  - rewrite andb_true_iff, !Z.leb_le. split.
    + intros H. now exists t.
    + intros (t' & [= <-] & H). exact H.
  - split; [discriminate|]. intros (t & [=] & _).
Qed.

(** C4: both filtered tables hold exactly the rows whose purchase date lies
    in [start_date, end_date]; the time of day plays no part, so a purchase at any time of [start_date] or [end_date]
    passes (when the range is not empty) and one on the day before
    [start_date] or after [end_date] does not. *)
Theorem date_filter_inclusive (master : list Fact.row)
    (orders : list Orders.row) (start_date end_date : Date) :
  (forall r, In r (filtered_df master start_date end_date)
             <-> In r master
                 /\ date_within start_date end_date
                                (Fact.order_purchase_timestamp r))
  /\ (forall o, In o (filtered_orders orders start_date end_date)
                <-> In o orders
                    /\ date_within start_date end_date
                                   (Orders.order_purchase_timestamp o))
  /\ (forall ns, 0 <= ns < NS_PER_DAY ->
        (start_date <= end_date ->
           in_date_range start_date end_date (Some (at_day start_date ns))
           = true
           /\ in_date_range start_date end_date (Some (at_day end_date ns))
              = true)
        /\ in_date_range start_date end_date
                         (Some (at_day (start_date - 1) ns)) = false
        /\ in_date_range start_date end_date
                         (Some (at_day (end_date + 1) ns)) = false).
Proof.
  split; [|split].
  - intros r. unfold filtered_df. rewrite filter_In.
    now rewrite in_date_range_spec.
  - intros o. unfold filtered_orders. rewrite filter_In.
    now rewrite in_date_range_spec.
  - intros ns Hns. unfold in_date_range.
    rewrite !dt_date_at_day by exact Hns.
    repeat split.
    + apply andb_true_iff. rewrite !Z.leb_le. lia.
    + apply andb_true_iff. rewrite !Z.leb_le. lia.
    + apply andb_false_iff. left. apply Z.leb_gt. lia.
    + apply andb_false_iff. right. apply Z.leb_gt. lia.
Qed.

(* ------------------------------------------------------------------ *)
(** ** Overview: average order value *)

Lemma unique_nil_iff {K} `{Key K} (l : list K) : unique l = [] <-> l = [].
Proof. destruct l; simpl; split; congruence. Qed.

Lemma total_orders_zero_iff (fo : list Orders.row) :
  total_orders fo = 0%nat <-> fo = [].
Proof.
  unfold total_orders, nunique. destruct fo as [|o t]; simpl.
  - split; reflexivity.
  - split; discriminate.
Qed.

Example scenario_january :
  let d := load_data raw_scenario in
  let fdf := filtered_df (master_df d) 17532 17562 in
  let fo := filtered_orders (orders d) 17532 17562 in
  (total_revenue fdf == 150)%Q
  /\ total_orders fo = 2%nat
  /\ (avg_order_value fdf fo == 75)%Q
  /\ map fst (sales_over_time fdf) = [(2018 - 1970) * 12].
Proof. vm_compute. repeat split; discriminate. Qed.

(* ------------------------------------------------------------------ *)
(** ** Overview: mean delivery days *)

Lemma filtered_orders_purchased orders start_date end_date :
  Forall has_purchase (filtered_orders orders start_date end_date).
Proof.
  apply Forall_forall. intros o Ho. unfold filtered_orders in Ho.
  apply filter_In in Ho. destruct Ho as [_ Ho]. unfold has_purchase.
  destruct (Orders.order_purchase_timestamp o); [discriminate|].
  discriminate Ho.
Qed.

Lemma delivery_days_dropna (fo : list Orders.row) :
  Forall has_purchase fo ->
  dropna (map (fun o => option_map inject_Z (delivery_days o)) fo)
  = map (fun o => inject_Z (days_to_deliver o)) (filter is_delivered fo).
Proof.
  induction 1 as [|o t Ho _ IH]; [reflexivity|].
  unfold dropna in *. cbn [map flat_map filter]. rewrite IH.
  clear IH. destruct o as [oid cid st [p|] [d|]];
    unfold is_delivered, delivery_days, days_to_deliver, has_purchase in *;
    cbn in Ho |- *; try reflexivity; now destruct Ho.
Qed.

Lemma avg_delivery_days_purchased (fo : list Orders.row) :
  Forall has_purchase fo ->
  avg_delivery_days fo = mean_delivery_days_spec fo.
Proof.
  intros Hp. unfold avg_delivery_days, mean_delivery_days_spec, mean_skipna.
  rewrite (delivery_days_dropna fo Hp).
  destruct (filter is_delivered fo) as [|o t]; [reflexivity|].
  cbn [map]. now rewrite !length_cons, length_map.
Qed.

(** C9: over the filtered orders the mean delivery time is the mean of the
    whole days between purchase and delivery of the delivered orders only;
    an order with a null delivery date changes neither the sum nor the
    count.  The whole days of an order are the complete days of 86 400
    seconds that fit between purchase and delivery. *)
Theorem avg_delivery_days_ignores_undelivered (orders : list Orders.row)
    (start_date end_date : Date) :
  avg_delivery_days (filtered_orders orders start_date end_date)
  = mean_delivery_days_spec (filtered_orders orders start_date end_date)
  /\ (forall (o : Orders.row) (fo : list Orders.row),
        Orders.order_delivered_customer_date o = None ->
        avg_delivery_days (o :: fo) = avg_delivery_days fo)
  /\ (forall (o : Orders.row) (dt pt : Timestamp),
        Orders.order_delivered_customer_date o = Some dt ->
        Orders.order_purchase_timestamp o = Some pt ->
        delivery_days o = Some (days_to_deliver o)
        /\ days_to_deliver o * 86400000000000 <= dt - pt
           < (days_to_deliver o + 1) * 86400000000000).
Proof.
  split; [|split].
  - apply avg_delivery_days_purchased, filtered_orders_purchased.
  - intros o fo Hnull. unfold avg_delivery_days, mean_skipna, delivery_days.
    cbn [map]. now rewrite Hnull.
  - intros o dt pt Hd Hp. unfold delivery_days, days_to_deliver.
    rewrite Hd, Hp. cbn [ts_or_epoch]. split; [reflexivity|].
    change 86400000000000 with ONE_DAY_NS.
    assert (0 < ONE_DAY_NS) as Hpos by reflexivity.
    pose proof (Z.div_mod (dt - pt) ONE_DAY_NS) as Hdm.
    pose proof (Z.mod_pos_bound (dt - pt) ONE_DAY_NS Hpos) as Hm.
    nia.
Qed.

Example avg_delivery_days_sample :
  match avg_delivery_days
          [mk_order "o1" (Some (at_day 10 0))
                    (Some (at_day 14 (5 * NS_PER_HOUR)));
           mk_order "o2" (Some (at_day 10 0)) None;
           mk_order "o3" (Some (at_day 10 0)) (Some (at_day 12 0))]
  with
  | Some q => (q == 3)%Q
  | None => False
  end
  /\ avg_delivery_days [mk_order "o2" (Some (at_day 10 0)) None] = None.
Proof. split; vm_compute; reflexivity. Qed.

(* ------------------------------------------------------------------ *)
(** ** Membership lemmas for the series operations *)

Lemma In_dropna {A} (l : list (option A)) (x : A) :
  In x (dropna l) <-> In (Some x) l.
Proof.
  unfold dropna. rewrite in_flat_map. split.
  - intros ([y|] & Hy & Hx); [|destruct Hx].
    destruct Hx as [->|[]]. exact Hy.
  - intros H. exists (Some x). split; [exact H|now left].
Qed.

Lemma In_unique {K} `{Key K} (l : list K) (x : K) :
  In x (unique l) <-> In x l.
Proof.
  induction l as [|k t IH]; simpl; [reflexivity|].
  rewrite filter_In, IH. split.
  - intros [->|[Hx _]]; auto.
  - intros [->|Hx]; [now left|].
    destruct (key_eqb_spec k x) as [->|Hne]; [now left|]. right. now split.
Qed.

Lemma NoDup_unique {K} `{Key K} (l : list K) : NoDup (unique l).
Proof.
  induction l as [|k t IH]; simpl; constructor.
  - rewrite filter_In. intros [_ Hk].
    destruct (key_eqb_spec k k); [discriminate|congruence].
  - now apply NoDup_filter.
Qed.

Lemma insert_key_perm {K} `{Key K} (k : K) (l : list K) :
  Permutation (insert_key k l) (k :: l).
Proof.
  induction l as [|h t IH]; simpl; [reflexivity|].
  destruct (key_leb k h); [reflexivity|].
  rewrite IH. apply perm_swap.
Qed.

Lemma sort_keys_perm {K} `{Key K} (l : list K) : Permutation (sort_keys l) l.
Proof.
  induction l as [|k t IH]; simpl; [constructor|].
  rewrite insert_key_perm. now constructor.
Qed.

Lemma insert_by_key_perm {K V} `{Key K} (e : K * V) (l : list (K * V)) :
  Permutation (insert_by_key e l) (e :: l).
Proof.
  induction l as [|h t IH]; simpl; [reflexivity|].
  destruct (key_leb (fst e) (fst h)); [reflexivity|].
  rewrite IH. apply perm_swap.
Qed.

Lemma sort_index_perm {K V} `{Key K} (s : list (K * V)) :
  Permutation (sort_index s) s.
Proof.
  induction s as [|e t IH]; simpl; [constructor|].
  rewrite insert_by_key_perm. now constructor.
Qed.

Lemma Permutation_In_iff {A} (l l' : list A) (x : A) :
  Permutation l l' -> (In x l <-> In x l').
Proof.
  intros P. split; apply Permutation_in; [exact P|now apply Permutation_sym].
Qed.

(** The group keys are the non-null key values that occur. *)
Lemma In_group_keys {A K} `{Key K} (key : A -> option K) (rows : list A)
    (k : K) :
  In k (group_keys key rows) <-> exists r, In r rows /\ key r = Some k.
Proof.
  unfold group_keys.
  rewrite (Permutation_In_iff _ _ k (sort_keys_perm _)), In_unique, In_dropna.
  rewrite in_map_iff. split; intros (r & A1 & A2); exists r; auto.
Qed.

Lemma NoDup_group_keys {A K} `{Key K} (key : A -> option K) (rows : list A) :
  NoDup (group_keys key rows).
Proof.
  unfold group_keys.
  eapply Permutation_NoDup;
    [apply Permutation_sym, sort_keys_perm|apply NoDup_unique].
Qed.

Lemma existsb_map {A B} (f : B -> bool) (g : A -> B) (l : list A) :
  existsb f (map g l) = existsb (fun x => f (g x)) l.
Proof. induction l as [|x t IH]; simpl; [reflexivity|]. now rewrite IH. Qed.

Lemma filter_map_swap {A B} (f : B -> bool) (g : A -> B) (l : list A) :
  filter f (map g l) = map g (filter (fun x => f (g x)) l).
Proof.
  induction l as [|x t IH]; simpl; [reflexivity|].
  rewrite IH. now destruct (f (g x)).
Qed.

Lemma filter_filter_andb {A} (p q : A -> bool) (l : list A) :
  filter q (filter p l) = filter (fun x => q x && p x) l.
Proof.
  induction l as [|x t IH]; simpl; [reflexivity|].
  destruct (p x) eqn:Ep; simpl; rewrite IH.
  - now rewrite andb_true_r.
  - now rewrite andb_false_r.
Qed.

Lemma filter_length_pos {A} (p : A -> bool) (l : list A) :
  0 < Z.of_nat (length (filter p l)) <-> exists x, In x l /\ p x = true.
Proof.
  split.
  - destruct (filter p l) as [|x t] eqn:E; simpl; [lia|]. intros _.
    exists x. apply filter_In. rewrite E. now left.
  - intros (x & Hx). apply filter_In in Hx.
    destruct (filter p l); [destruct Hx|simpl; lia].
Qed.

(** [value_counts] holds each occurring value with its number of
    occurrences, whatever the order the sorter gives. *)
Lemma In_value_counts (S : Sorter) {K} `{Key K} (col : list (option K))
    (k : K) (c : Z) :
  In (k, c) (value_counts S col) <-> c = count_eq k col /\ 0 < c.
Proof.
  unfold value_counts.
  rewrite (Permutation_In_iff _ _ (k, c) (sort_desc_perm S _ _ _)).
  rewrite in_map_iff. split.
  - intros (k' & [= -> <-] & Hk). split; [reflexivity|].
    apply In_unique, In_dropna in Hk. unfold count_eq.
    apply filter_length_pos. exists (Some k). split; [exact Hk|].
    now apply opt_eqb_eq.
  - intros [-> Hpos]. exists k. split; [reflexivity|].
    apply In_unique, In_dropna. unfold count_eq in Hpos.
    apply filter_length_pos in Hpos. destruct Hpos as (x & Hx & Hk).
    apply opt_eqb_eq in Hk. now subst x.
Qed.

(* ------------------------------------------------------------------ *)
(** ** Overview: the average order value, against the specification *)

Lemma dropna_map_Some {A B} (f : A -> B) (l : list A) :
  dropna (map (fun x => Some (f x)) l) = map f l.
Proof.
  unfold dropna. induction l as [|x t IH]; simpl; [reflexivity|].
  now rewrite IH.
Qed.

Lemma total_revenue_item_price_sum (fdf : list Fact.row) :
  total_revenue fdf = item_price_sum fdf.
Proof.
  unfold total_revenue, sum_skipna, dropna, Fact.price.
  induction fdf as [|r t IH]; [reflexivity|].
  cbn [map flat_map item_price_sum].
  destruct (Fact.item r) as [i|]; cbn [option_map app Qsum fold_right].
  - f_equal. exact IH.
  - exact IH.
Qed.

Lemma total_orders_distinct (fo : list Orders.row) (ids : list string) :
  distinct_order_ids fo ids -> total_orders fo = length ids.
Proof.
  intros [Hn Hin]. unfold total_orders, nunique. rewrite dropna_map_Some.
  apply Permutation_length, NoDup_Permutation;
    [apply NoDup_unique|exact Hn|].
  intros id. rewrite In_unique, in_map_iff, Hin.
  split; intros (o & A1 & A2); exists o; auto.
Qed.

(** C7: with no order in the filtered set the average order value is 0;
    otherwise it is the total revenue (the item prices of the filtered fact
    rows added up) divided by the number of distinct orders (the length of
    any list holding each order id of the filtered orders once). *)
Theorem avg_order_value_spec (fdf : list Fact.row) (fo : list Orders.row) :
  (total_orders fo = 0%nat <-> fo = [])
  /\ (fo = [] -> avg_order_value fdf fo = 0%Q)
  /\ (fo <> [] ->
      (0 < total_orders fo)%nat
      /\ (exists ids, distinct_order_ids fo ids)
      /\ forall ids, distinct_order_ids fo ids ->
           (0 < length ids)%nat
           /\ avg_order_value fdf fo
              = (item_price_sum fdf / inject_Z (Z.of_nat (length ids)))%Q).
Proof.
  split; [apply total_orders_zero_iff|]. split.
  - intros ->. reflexivity.
  - intros Hne.
    assert (0 < total_orders fo)%nat as Hpos.
    { destruct (total_orders fo) eqn:E; [|lia].
      now apply total_orders_zero_iff in E. }
    split; [exact Hpos|]. split.
    { exists (unique (map Orders.order_id fo)). split; [apply NoDup_unique|].
      intros id. rewrite In_unique, in_map_iff.
      split; intros (o & A1 & A2); exists o; auto. }
    intros ids Hids.
    pose proof (total_orders_distinct fo ids Hids) as Hlen.
    split; [lia|]. unfold avg_order_value.
    apply Nat.ltb_lt in Hpos. rewrite Hpos.
    now rewrite total_revenue_item_price_sum, Hlen.
Qed.

(* ------------------------------------------------------------------ *)
(** ** Review analysis *)

Lemma isin_order_in (fo : list Orders.row) (oid : string) :
  isin (relevant_order_ids fo) (Some oid) = order_in fo oid.
Proof. unfold isin, relevant_order_ids, order_in. now rewrite existsb_map. Qed.

Lemma order_in_spec (fo : list Orders.row) (oid : string) :
  order_in fo oid = true <-> exists o, In o fo /\ Orders.order_id o = oid.
Proof.
  unfold order_in. rewrite existsb_exists.
  split; intros (o & Ho & E); exists o; split; auto.
  - apply String.eqb_eq in E. now symmetry.
  - apply String.eqb_eq. now symmetry.
Qed.

(** C8: the reviews kept for the score distribution are exactly the reviews
    whose [order_id] is the id of a filtered order, and the distribution
    lists, for each score, the number of those reviews; the review's own
    creation date plays no part. *)
Theorem review_scores_follow_orders (S : Sorter) (reviews : list Reviews.row)
    (fo : list Orders.row) :
  (forall r, In r (relevant_reviews reviews fo)
             <-> In r reviews
                 /\ exists o, In o fo
                              /\ Orders.order_id o = Reviews.order_id r)
  /\ (forall s c, In (s, c) (review_dist S reviews fo)
                  <-> c = linked_review_count reviews fo s /\ 0 < c).
Proof.
  split.
  - intros r. unfold relevant_reviews. rewrite filter_In, isin_order_in.
    now rewrite order_in_spec.
  - intros s c. unfold review_dist.
    rewrite (Permutation_In_iff _ _ (s, c) (sort_index_perm _)).
    rewrite In_value_counts.
    assert (count_eq s (map (fun r => Some (Reviews.review_score r))
                            (relevant_reviews reviews fo))
            = linked_review_count reviews fo s) as ->; [|reflexivity].
    unfold count_eq, linked_review_count, relevant_reviews.
    rewrite filter_map_swap, length_map, filter_filter_andb.
    do 2 f_equal. apply filter_ext. intros r.
    now rewrite isin_order_in.
Qed.

(** A review written inside the date range for an order placed outside it
    is left out of the distribution. *)
Example review_of_outside_order_excluded :
  let orders := [mk_order "o1" (Some (at_day 17536 0)) None;
                 mk_order "o2" (Some (at_day 17400 0)) None] in
  let reviews := [mk_review "r1" "o1" 5 (Some (at_day 17540 0));
                  mk_review "r2" "o2" 1 (Some (at_day 17540 0))] in
  review_dist stable_sorter reviews (filtered_orders orders 17532 17562)
  = [(5, 1)].
Proof. reflexivity. Qed.

(** C10, as the code has it: the rows kept for delivery time against score
    are exactly the pairs of a relevant review and its filtered order whose
    delivery date is set and whose whole delivery days are below 50; the
    days are not negative when the delivery is not earlier than the
    purchase. *)
Theorem reviews_orders_below_50 (reviews : list Reviews.row)
    (fo : list Orders.row) :
  (forall r o, In (r, o) (reviews_orders reviews fo)
               <-> In r reviews /\ In o fo
                   /\ Orders.order_id o = Reviews.order_id r
                   /\ exists dt pt,
                        Orders.order_delivered_customer_date o = Some dt
                        /\ Orders.order_purchase_timestamp o = Some pt
                        /\ delivery_days o = Some (timedelta_days dt pt)
                        /\ timedelta_days dt pt < 50)
  /\ (forall dt pt, pt <= dt -> 0 <= timedelta_days dt pt).
Proof.
  split.
  - intros r o. unfold reviews_orders, merge_inner.
    rewrite filter_In, in_flat_map. cbn [snd]. split.
    + intros ((r' & Hr' & Hin) & Hlt).
      apply in_map_iff in Hin. destruct Hin as (o' & [= -> ->] & Ho).
      apply filter_In in Ho. destruct Ho as [Ho Hid].
      apply opt_eqb_eq in Hid. injection Hid as Hid.
      unfold relevant_reviews in Hr'. apply filter_In in Hr'.
      repeat split; [apply Hr'|exact Ho|now symmetry|].
      unfold delivery_days in *.
      destruct (Orders.order_delivered_customer_date o) as [dt|];
        [|discriminate].
      destruct (Orders.order_purchase_timestamp o) as [pt|]; [|discriminate].
      exists dt, pt. repeat split. now apply Z.ltb_lt.
    + intros (Hr & Ho & Hid & dt & pt & Hd & Hp & Hdays & Hlt). split.
      * exists r. split.
        -- unfold relevant_reviews. apply filter_In. split; [exact Hr|].
           rewrite isin_order_in. apply order_in_spec. now exists o.
        -- apply in_map_iff. exists o. split; [reflexivity|].
           apply filter_In. split; [exact Ho|].
           apply opt_eqb_eq. now rewrite Hid.
      * rewrite Hdays. now apply Z.ltb_lt.
  - intros dt pt Hle. unfold timedelta_days.
    apply Z.div_pos; [lia|exact NS_PER_DAY_pos].
Qed.

(** C10 as stated fails: an order recorded as delivered before its purchase
    has negative delivery days, which the comparison with 50 lets through. *)
Lemma reviews_orders_negative_days :
  ~ (forall (reviews : list Reviews.row) (fo : list Orders.row) r o,
       In (r, o) (reviews_orders reviews fo) ->
       exists d, delivery_days o = Some d /\ 0 <= d < 50).
Proof.
  intros Hclaim.
  destruct (Hclaim [mk_review "r9" "o9" 1 None] [order_early]
                   (mk_review "r9" "o9" 1 None) order_early)
    as (d & Hd & Hge & _).
  - now left.
  - vm_compute in Hd. injection Hd as <-. now apply Hge.
Qed.

(* ------------------------------------------------------------------ *)
(** ** Sales by day of week *)

Lemma lookup_map_keys {K V} `{Key K} (F : K -> V) (ks : list K) (k : K) :
  lookup k (map (fun k' => (k', F k')) ks)
  = if existsb (key_eqb k) ks then Some (F k) else None.
Proof.
  induction ks as [|h t IH]; simpl; [reflexivity|].
  destruct (key_eqb_spec k h) as [->|Hne]; simpl; [reflexivity|exact IH].
Qed.

Lemma existsb_key_eqb {K} `{Key K} (ks : list K) (k : K) :
  existsb (key_eqb k) ks = true <-> In k ks.
Proof.
  rewrite existsb_exists. split.
  - intros (x & Hx & E). destruct (key_eqb_spec k x); [now subst|discriminate].
  - intros Hk. exists k. split; [exact Hk|].
    destruct (key_eqb_spec k k); [reflexivity|congruence].
Qed.

(** A label of a group-by sum: null when no row carries the key, else the
    sum of the non-null values of the rows that do. *)
Lemma lookup_groupby_sum {A K} `{Key K} (key : A -> option K)
    (val : A -> option Q) (rows : list A) (k : K) :
  lookup k (groupby_sum key val rows)
  = match group key k rows with
    | [] => None
    | g => Some (sum_skipna (map val g))
    end.
Proof.
  unfold groupby_sum. rewrite lookup_map_keys.
  destruct (existsb (key_eqb k) (group_keys key rows)) eqn:E.
  - apply existsb_key_eqb, In_group_keys in E. destruct E as (r & Hr & Hk).
    destruct (group key k rows) as [|x t] eqn:G; [|reflexivity].
    unfold group in G.
    assert (In r (filter (fun r => opt_eqb (key r) (Some k)) rows)) as Hin.
    { apply filter_In. split; [exact Hr|]. now apply opt_eqb_eq. }
    rewrite G in Hin. destruct Hin.
  - destruct (group key k rows) as [|x t] eqn:G; [reflexivity|].
    assert (In x (group key k rows)) as Hin by (rewrite G; now left).
    unfold group in Hin. apply filter_In in Hin. destruct Hin as [Hx Hk].
    apply opt_eqb_eq in Hk.
    assert (existsb (key_eqb k) (group_keys key rows) = true) as E'.
    { apply existsb_key_eqb, In_group_keys. now exists x. }
    congruence.
Qed.

(** C2, as the code has it: the table has the seven weekdays, Monday to
    Sunday in that order; a weekday with fact rows carries the sum of their
    prices and a weekday without fact rows carries a null value. *)
Theorem sales_by_day_slots (fdf : list Fact.row) :
  sales_by_day fdf = map (fun day => (day, weekday_slot fdf day)) day_order
  /\ map fst (sales_by_day fdf)
     = ["Monday"; "Tuesday"; "Wednesday"; "Thursday"; "Friday"; "Saturday";
        "Sunday"]%string
  /\ forall day, In day day_order ->
       (forall r, In r fdf -> Fact.day_of_week r <> Some day) ->
       In (day, None) (sales_by_day fdf).
Proof.
  assert (sales_by_day fdf
          = map (fun day => (day, weekday_slot fdf day)) day_order) as E.
  { unfold sales_by_day, reindex. apply map_ext. intros day.
    now rewrite lookup_groupby_sum. }
  split; [exact E|]. split.
  - rewrite E. reflexivity.
  - intros day Hday Hnone. rewrite E. apply in_map_iff. exists day.
    split; [|exact Hday]. f_equal. unfold weekday_slot, group.
    replace (filter _ fdf) with (@nil Fact.row); [reflexivity|].
    symmetry. apply filter_nil_iff. intros r Hr.
    destruct (opt_eqb (Fact.day_of_week r) (Some day)) eqn:Eq;
      [|reflexivity].
    apply opt_eqb_eq in Eq. now apply Hnone in Eq.
Qed.

(** C2 as stated fails: a weekday without fact rows gets a null value, not
    a zero.  Here the only sale is on a Friday. *)
Lemma sales_by_day_missing_day_not_zero :
  ~ (forall (fdf : list Fact.row) (day : string),
       In day day_order ->
       (forall r, In r fdf -> Fact.day_of_week r <> Some day) ->
       exists z, In (day, Some z) (sales_by_day fdf) /\ (z == 0)%Q).
Proof.
  intros Hclaim.
  destruct (Hclaim (master_df (load_data (raw_one_sale None 10%Q)))
                   "Monday"%string)
    as (z & Hin & _).
  - now left.
  - intros r [<-|[]]. discriminate.
  - vm_compute in Hin.
    repeat (destruct Hin as [Hin|Hin]; [discriminate Hin|]). exact Hin.
Qed.

Example sales_by_day_friday_only :
  sales_by_day (master_df (load_data (raw_one_sale None 10%Q)))
  = [("Monday", None); ("Tuesday", None); ("Wednesday", None);
     ("Thursday", None); ("Friday", Some (10 + 0)%Q); ("Saturday", None);
     ("Sunday", None)]%string.
Proof. reflexivity. Qed.

(* ------------------------------------------------------------------ *)
(** ** Top categories by revenue *)

Lemma filter_all {A} (l : list A) : filter (fun _ => true) l = l.
Proof. induction l as [|x t IH]; simpl; [reflexivity|]. now rewrite IH. Qed.

Lemma filter_none {A} (l : list A) : filter (fun _ => false) l = [].
Proof. induction l as [|x t IH]; simpl; [reflexivity|exact IH]. Qed.

(** On a series without nulls [sort_values] is the bare sort. *)
Lemma sort_values_desc_notnull (S : Sorter) {A} (f : A -> Q) (l : list A) :
  sort_values_desc S (fun a => Some (f a)) l = sort_desc S A f l.
Proof.
  unfold sort_values_desc. cbn [notnull negb or_zero].
  rewrite filter_all, filter_none, app_nil_r. reflexivity.
Qed.

Lemma StronglySorted_app_inv {A} (R : A -> A -> Prop) (l1 l2 : list A) :
  StronglySorted R (l1 ++ l2) ->
  StronglySorted R l1 /\ forall x y, In x l1 -> In y l2 -> R x y.
Proof.
  induction l1 as [|a t IH]; simpl; intros Hs.
  - split; [constructor|]. intros x y [].
  - inversion Hs as [|a' l' Hs' Hall]; subst.
    destruct (IH Hs') as [Ht Hcross]. split.
    + constructor; [exact Ht|].
      apply Forall_forall. intros y Hy.
      rewrite Forall_forall in Hall. apply Hall, in_or_app. now left.
    + intros x y [<-|Hx] Hy; [|now apply Hcross].
      rewrite Forall_forall in Hall. apply Hall, in_or_app. now right.
Qed.

(** X25: the category table holds the categories of highest summed price,
    in non-increasing order of revenue, [top_n] of them or all of them when
    there are fewer; the categories are distinct, each with the sum of the
    prices of its fact rows, and every category left out has a revenue no
    higher than every category returned.  Nothing is said of the order
    among categories of equal revenue. *)
Theorem category_sales_top (S : Sorter) (fdf : list Fact.row) (top_n : nat) :
  length (category_sales S fdf top_n)
  = Nat.min top_n (length (category_revenue fdf))
  /\ StronglySorted (fun x y => (snd y <= snd x)%Q)
                    (category_sales S fdf top_n)
  /\ (exists rest,
        Permutation (category_sales S fdf top_n ++ rest)
                    (category_revenue fdf)
        /\ forall x y, In x (category_sales S fdf top_n) -> In y rest ->
                       (snd y <= snd x)%Q)
  /\ (forall c v, In (c, v) (category_revenue fdf)
        <-> (exists r, In r fdf
                       /\ Fact.product_category_name_english r = Some c)
            /\ v = sum_skipna
                     (map Fact.price
                          (group Fact.product_category_name_english c fdf)))
  /\ NoDup (map fst (category_revenue fdf))
  /\ NoDup (map fst (category_sales S fdf top_n)).
Proof.
  assert (NoDup (map fst (category_revenue fdf))) as Hnd.
  { unfold category_revenue, groupby_sum. rewrite map_map. cbn [fst].
    rewrite map_id. apply NoDup_group_keys. }
  unfold category_sales. fold (category_revenue fdf).
  rewrite (sort_values_desc_notnull S snd).
  set (L := sort_desc S _ snd (category_revenue fdf)).
  assert (Permutation L (category_revenue fdf)) as HP
    by apply sort_desc_perm.
  assert (StronglySorted (fun x y => (snd y <= snd x)%Q) L) as HS
    by apply sort_desc_sorted.
  rewrite <- (firstn_skipn top_n L) in HS.
  apply StronglySorted_app_inv in HS. destruct HS as [HS1 HS2].
  split; [|split; [exact HS1|split; [|split; [|split; [exact Hnd|]]]]].
  - rewrite length_firstn, (Permutation_length HP). reflexivity.
  - exists (skipn top_n L). split; [|exact HS2].
    now rewrite firstn_skipn.
  - intros c v. unfold category_revenue, groupby_sum.
    rewrite in_map_iff. split.
    + intros (k & [= -> <-] & Hk). apply In_group_keys in Hk. now split.
    + intros [Hk ->]. exists c. split; [reflexivity|].
      now apply In_group_keys.
  - assert (NoDup (map fst L)) as HL.
    { eapply Permutation_NoDup;
        [apply Permutation_sym, Permutation_map, HP|exact Hnd]. }
    rewrite <- (firstn_skipn top_n L), map_app in HL.
    now apply NoDup_app_remove_r in HL.
Qed.

(* ------------------------------------------------------------------ *)
(** ** An empty date range *)

Lemma in_date_range_reversed start_date end_date ts :
  end_date < start_date -> in_date_range start_date end_date ts = false.
Proof.
  intros H. destruct ts as [t|]; [|reflexivity]. simpl.
  apply andb_false_iff.
  destruct (Z.leb_spec start_date (dt_date t)); [right|now left].
  apply Z.leb_gt. lia.
Qed.

Lemma filter_false {A} (f : A -> bool) (l : list A) :
  (forall x, f x = false) -> filter f l = [].
Proof. intros H. apply filter_nil_iff. intros x _. apply H. Qed.

Lemma sort_desc_nil (S : Sorter) {A} (f : A -> Q) : sort_desc S A f [] = [].
Proof. apply Permutation_nil, Permutation_sym, sort_desc_perm. Qed.

Lemma value_counts_nil (S : Sorter) {K} `{Key K} :
  value_counts S (@nil (option K)) = [].
Proof. unfold value_counts. simpl. apply sort_desc_nil. Qed.

Lemma sort_values_desc_nil (S : Sorter) {A} (val : A -> option Q) :
  sort_values_desc S val [] = [].
Proof. unfold sort_values_desc. simpl. now rewrite sort_desc_nil. Qed.

(** The outputs of the page queries when both filtered tables are empty. *)
Lemma queries_on_empty (S : Sorter) (d : Data) :
  total_revenue [] = 0%Q
  /\ total_orders [] = 0%nat
  /\ avg_order_value [] [] = 0%Q
  /\ sales_over_time [] = []
  /\ sales_by_hour [] = []
  /\ sales_by_day [] = map (fun day => (day, None)) day_order
  /\ (forall top_n, category_sales S [] top_n = [])
  /\ state_counts S [] = []
  /\ city_counts S [] = []
  /\ relevant_reviews (reviews d) [] = []
  /\ review_dist S (reviews d) [] = []
  /\ reviews_orders (reviews d) [] = []
  /\ relevant_payments (payments d) [] = []
  /\ payment_counts S (payments d) [] = []
  /\ safe_payments (payments d) [] = []
  /\ df_delivery [] = []
  /\ relevant_items (items d) (products d) [] = []
  /\ state_freight S [] = [].
Proof.
  assert (relevant_reviews (reviews d) [] = []) as Hrr
    by (apply filter_false; reflexivity).
  assert (relevant_payments (payments d) [] = []) as Hrp
    by (apply filter_false; reflexivity).
  repeat split; try reflexivity.
  - intros top_n. unfold category_sales. simpl.
    rewrite sort_values_desc_nil. now destruct top_n.
  - unfold state_counts. simpl. now rewrite value_counts_nil.
  - unfold city_counts. simpl. now rewrite value_counts_nil.
  - exact Hrr.
  - unfold review_dist. rewrite Hrr. simpl. now rewrite value_counts_nil.
  - unfold reviews_orders. now rewrite Hrr.
  - exact Hrp.
  - unfold payment_counts. rewrite Hrp. simpl. apply value_counts_nil.
  - unfold safe_payments. now rewrite Hrp.
  - apply filter_false. reflexivity.
  - unfold state_freight. simpl. apply sort_values_desc_nil.
Qed.

(** C5, as the code has it: when [start_date] is after [end_date] both
    filtered tables are empty; revenue, order count and average order value
    are 0, the weekday table has its seven slots with null values, and
    every other table computed by the pages is empty. *)
Theorem empty_range_queries (S : Sorter) (d : Data)
    (start_date end_date : Date) :
  end_date < start_date ->
  let fdf := filtered_df (master_df d) start_date end_date in
  let fo := filtered_orders (orders d) start_date end_date in
  fdf = [] /\ fo = []
  /\ total_revenue fdf = 0%Q
  /\ total_orders fo = 0%nat
  /\ avg_order_value fdf fo = 0%Q
  /\ sales_over_time fdf = []
  /\ sales_by_hour fdf = []
  /\ sales_by_day fdf = map (fun day => (day, None)) day_order
  /\ (forall top_n, category_sales S fdf top_n = [])
  /\ state_counts S fdf = []
  /\ city_counts S fdf = []
  /\ relevant_reviews (reviews d) fo = []
  /\ review_dist S (reviews d) fo = []
  /\ reviews_orders (reviews d) fo = []
  /\ relevant_payments (payments d) fo = []
  /\ payment_counts S (payments d) fo = []
  /\ safe_payments (payments d) fo = []
  /\ df_delivery fo = []
  /\ relevant_items (items d) (products d) fo = []
  /\ state_freight S fdf = [].
Proof.
  intros Hrev fdf fo.
  assert (fdf = []) as ->.
  { apply filter_false. intros r. now apply in_date_range_reversed. }
  assert (fo = []) as ->.
  { apply filter_false. intros o. now apply in_date_range_reversed. }
  split; [reflexivity|]. split; [reflexivity|]. apply queries_on_empty.
Qed.

Lemma empty_range_queries_witness :
  17532 < 17562
  /\ filtered_df (master_df (load_data raw_scenario)) 17562 17532 = []
  /\ filtered_orders (orders (load_data raw_scenario)) 17562 17532 = [].
Proof.
  split; [reflexivity|].
  pose proof (empty_range_queries stable_sorter (load_data raw_scenario)
                                  17562 17532 eq_refl) as H.
  split; [exact (proj1 H)|exact (proj1 (proj2 H))].
Defined.

(** C5 as stated fails: over an empty range the weekday table is neither
    empty nor zero-valued, it has seven null slots. *)
Lemma empty_range_weekdays_null :
  ~ (forall (d : Data) (start_date end_date : Date),
       end_date < start_date ->
       sales_by_day (filtered_df (master_df d) start_date end_date) = []
       \/ zero_valued
            (sales_by_day (filtered_df (master_df d) start_date end_date))).
Proof.
  intros Hclaim.
  destruct (Hclaim (load_data raw_scenario) 17562 17532 eq_refl) as [H|H].
  - discriminate H.
  - vm_compute in H. inversion H as [|e t (z & Hz & _) _]. discriminate Hz.
Qed.

(* ================================================================== *)
(** * Further properties of the pipeline and of the page queries *)

(* ------------------------------------------------------------------ *)
(** ** Left joins: what a row of the result is *)

Lemma merge_left_In {L R K} `{Key K} (kl : L -> option K)
    (kr : R -> option K) (left : list L) (right : list R) (x : L)
    (r : option R) :
  In (x, r) (merge_left kl kr left right)
  <-> In x left
      /\ match r with
         | Some y => In y right /\ kr y = kl x
         | None => forall y, In y right -> kr y <> kl x
         end.
Proof.
  unfold merge_left. rewrite in_flat_map. split.
  - intros (x' & Hx' & Hin).
    destruct (filter (fun y => opt_eqb (kl x') (kr y)) right) as [|m ms] eqn:E.
    + destruct Hin as [[= -> <-]|[]]. split; [exact Hx'|].
      intros y Hy Heq. rewrite filter_nil_iff in E.
      specialize (E y Hy). symmetry in Heq. apply opt_eqb_eq in Heq.
      congruence.
    + apply in_map_iff in Hin. destruct Hin as (y & [= -> <-] & Hy).
      rewrite <- E in Hy. apply filter_In in Hy. destruct Hy as [Hy Hm].
      apply opt_eqb_eq in Hm. split; [exact Hx'|]. now split.
  - intros [Hx Hr]. exists x. split; [exact Hx|].
    destruct r as [y|].
    + destruct Hr as [Hy Hk].
      assert (In y (filter (fun y => opt_eqb (kl x) (kr y)) right)) as Hin.
      { apply filter_In. split; [exact Hy|]. now apply opt_eqb_eq. }
      destruct (filter _ right) as [|m ms]; [destruct Hin|].
      apply in_map_iff. now exists y.
    + replace (filter _ right) with (@nil R); [now left|].
      symmetry. apply filter_nil_iff. intros y Hy.
      destruct (opt_eqb (kl x) (kr y)) eqn:E; [|reflexivity].
      apply opt_eqb_eq in E. symmetry in E. now apply Hr in E.
Qed.

(** Every left row survives a left join. *)
Lemma merge_left_total {L R K} `{Key K} (kl : L -> option K)
    (kr : R -> option K) (left : list L) (right : list R) (x : L) :
  In x left -> exists r, In (x, r) (merge_left kl kr left right).
Proof.
  intros Hx. unfold merge_left.
  destruct (filter (fun y => opt_eqb (kl x) (kr y)) right) as [|m ms] eqn:E.
  - exists None. apply in_flat_map. exists x. split; [exact Hx|].
    rewrite E. now left.
  - exists (Some m). apply in_flat_map. exists x. split; [exact Hx|].
    rewrite E. now left.
Qed.

(** With at most one partner per left row, a left join returns the left
    rows themselves, in their order. *)
Lemma merge_left_fst_unique {L R K} `{Key K} (kl : L -> option K)
    (kr : R -> option K) (left : list L) (right : list R) :
  (forall x, In x left -> (matches kl kr right x <= 1)%nat) ->
  map fst (merge_left kl kr left right) = left.
Proof.
  unfold merge_left, matches.
  induction left as [|x t IH]; intros Hu; [reflexivity|].
  cbn [flat_map]. rewrite map_app, IH by (intros y Hy; apply Hu; now right).
  specialize (Hu x (or_introl eq_refl)).
  destruct (filter (fun y => opt_eqb (kl x) (kr y)) right) as [|m [|m' ms]];
    [reflexivity|reflexivity|simpl in Hu; lia].
Qed.

Lemma In_build_master_df orders items products customers (r : Fact.row) :
  In r (build_master_df orders items products customers)
  <-> In (Fact.order r, Fact.item r, Fact.product r, Fact.customer r)
         (with_customers orders items products customers).
Proof.
  unfold build_master_df.
  fold (with_products orders items products).
  fold (with_customers orders items products customers).
  rewrite in_map_iff. split.
  - intros ([[[o i] p] c] & <- & Hin). exact Hin.
  - intros Hin. eexists. split; [|exact Hin]. now destruct r.
Qed.

(* ------------------------------------------------------------------ *)
(** ** The fact table *)

Lemma orders_of_master_df (orders : list Orders.row)
    (items : list Items.row) (products : list ProductsT.row)
    (customers : list Customers.row) (o : Orders.row) :
  In o orders
  <-> exists r, In r (build_master_df orders items products customers)
                /\ Fact.order r = o.
Proof.
  split.
  - intros Ho.
    destruct (merge_left_total (fun o => Some (Orders.order_id o))
                (fun i => Some (Items.order_id i)) orders items o Ho)
      as (i & Hi).
    fold (order_items orders items) in Hi.
    destruct (merge_left_total
                (fun oi : Orders.row * option Items.row =>
                   option_map Items.product_id (snd oi))
                (fun p => Some (ProductsT.product_id p))
                (order_items orders items) products (o, i) Hi) as (p & Hp).
    fold (with_products orders items products) in Hp.
    destruct (merge_left_total
                (fun oip : Orders.row * option Items.row
                           * option ProductsT.row =>
                   Some (Orders.customer_id (fst (fst oip))))
                (fun c => Some (Customers.customer_id c))
                (with_products orders items products) customers (o, i, p) Hp)
      as (c & Hc).
    fold (with_customers orders items products customers) in Hc.
    exists {| Fact.order := o; Fact.item := i; Fact.product := p;
              Fact.customer := c |}.
    split; [|reflexivity]. now apply In_build_master_df.
  - intros (r & Hr & <-). apply In_build_master_df in Hr.
    unfold with_customers in Hr. apply merge_left_In in Hr.
    destruct Hr as [Hr _]. unfold with_products in Hr.
    apply merge_left_In in Hr. destruct Hr as [Hr _].
    unfold order_items in Hr. apply merge_left_In in Hr. apply Hr.
Qed.

(** X1: the fact table never loses an order and never invents one: the
    orders carried by its rows are exactly the rows of the orders table,
    whatever the items, products and customers tables hold. *)
Theorem master_df_orders_kept (orders : list Orders.row)
    (items : list Items.row) (products : list ProductsT.row)
    (customers : list Customers.row) (o : Orders.row) :
  In o orders
  <-> exists r, In r (build_master_df orders items products customers)
                /\ Fact.order r = o.
Proof. apply orders_of_master_df. Qed.

(** X2: the columns of a fact row agree on their keys.  Its item, when
    present, is an item of that order; its product, when present, is the
    product of that item; its customer, when present, is the customer of
    that order; and a null item, product or customer means that the table
    has no row with the key looked for. *)
Theorem master_df_row_keys (orders : list Orders.row)
    (items : list Items.row) (products : list ProductsT.row)
    (customers : list Customers.row) (r : Fact.row) :
  In r (build_master_df orders items products customers) ->
  match Fact.item r with
  | Some i => In i items /\ Items.order_id i = Fact.order_id r
  | None => forall i, In i items -> Items.order_id i <> Fact.order_id r
  end
  /\ match Fact.product r with
     | Some p => In p products
                 /\ exists i, Fact.item r = Some i
                              /\ ProductsT.product_id p = Items.product_id i
     | None => forall i p, Fact.item r = Some i -> In p products ->
                           ProductsT.product_id p <> Items.product_id i
     end
  /\ match Fact.customer r with
     | Some c => In c customers
                 /\ Customers.customer_id c
                    = Orders.customer_id (Fact.order r)
     | None => forall c, In c customers ->
                 Customers.customer_id c <> Orders.customer_id (Fact.order r)
     end.
Proof.
  intros Hr. apply In_build_master_df in Hr.
  unfold with_customers in Hr. apply merge_left_In in Hr.
  destruct Hr as [Hp Hc]. unfold with_products in Hp.
  apply merge_left_In in Hp. destruct Hp as [Hi Hp].
  unfold order_items in Hi. apply merge_left_In in Hi.
  destruct Hi as [_ Hi]. cbn [fst snd] in *. unfold Fact.order_id.
  split; [|split].
  - destruct (Fact.item r) as [i|].
    + destruct Hi as [Hin Hk]. split; [exact Hin|]. congruence.
    + intros i Hin Heq. apply (Hi i Hin). congruence.
  - destruct (Fact.product r) as [p|].
    + destruct Hp as [Hin Hk]. split; [exact Hin|].
      destruct (Fact.item r) as [i|]; [|discriminate Hk].
      exists i. split; [reflexivity|]. simpl in Hk. congruence.
    + intros i p Hitem Hin Heq. rewrite Hitem in Hp.
      apply (Hp p Hin). simpl. congruence.
  - destruct (Fact.customer r) as [c|].
    + destruct Hc as [Hin Hk]. split; [exact Hin|]. congruence.
    + intros c Hin Heq. apply (Hc c Hin). congruence.
Qed.

Lemma master_df_row_keys_witness :
  In {| Fact.order := order_o1; Fact.item := Some (mk_item "o1" "p1" 10%Q);
        Fact.product :=
          Some {| ProductsT.base := mk_product "p1" (Some "a"%string);
                  ProductsT.product_category_name_english :=
                    Some "a"%string |};
        Fact.customer := None |}
     (master_df (load_data (raw_one_sale (Some "a"%string) 10%Q)))
  /\ Items.order_id (mk_item "o1" "p1" 10%Q) = "o1"%string.
Proof.
  assert (In {| Fact.order := order_o1;
                Fact.item := Some (mk_item "o1" "p1" 10%Q);
                Fact.product :=
                  Some {| ProductsT.base := mk_product "p1" (Some "a"%string);
                          ProductsT.product_category_name_english :=
                            Some "a"%string |};
                Fact.customer := None |}
             (master_df (load_data (raw_one_sale (Some "a"%string) 10%Q))))
    as Hin by (now left).
  split; [exact Hin|].
  exact (proj2 (proj1 (master_df_row_keys _ _ _ _ _ Hin))).
Defined.

Lemma NoDup_ids_at_most_one {A} (id : A -> string) (l : list A) :
  NoDup (map id l) ->
  forall k, (length (filter (fun x => String.eqb k (id x)) l) <= 1)%nat.
Proof.
  intros Hn k. induction l as [|x t IH]; simpl; [lia|].
  inversion Hn as [|y l' Hx Ht]; subst. specialize (IH Ht).
  destruct (String.eqb_spec k (id x)) as [->|Hne]; [|exact IH].
  simpl. replace (filter _ t) with (@nil A); [simpl; lia|].
  symmetry. apply filter_nil_iff. intros z Hz.
  destruct (String.eqb_spec (id x) (id z)) as [E|]; [|reflexivity].
  exfalso. apply Hx. rewrite E. now apply in_map.
Qed.

(** X3: when [product_id] and [customer_id] are unique keys of their
    tables, the product and customer joins neither drop, duplicate nor
    reorder anything: the (order, item) columns of the fact table are the
    rows of the orders-items join, in the same order. *)
Theorem master_df_keeps_order_items (orders : list Orders.row)
    (items : list Items.row) (products : list ProductsT.row)
    (customers : list Customers.row) :
  unique_product_ids products ->
  unique_customer_ids customers ->
  map (fun r => (Fact.order r, Fact.item r))
      (build_master_df orders items products customers)
  = order_items orders items.
Proof.
  intros Hp Hc. unfold build_master_df.
  fold (with_products orders items products).
  fold (with_customers orders items products customers).
  rewrite map_map.
  rewrite (map_ext _ (fun x => fst (fst x)))
    by (now intros [[[o i] p] c]).
  rewrite <- (map_map fst fst). unfold with_customers.
  rewrite merge_left_fst_unique.
  - unfold with_products. apply merge_left_fst_unique.
    intros [o [i|]] _; unfold matches; simpl.
    + apply Hp.
    + clear. induction products as [|p t IH]; simpl; auto.
  - intros [[o i] p] _. unfold matches; simpl. apply Hc.
Qed.

Lemma master_df_keeps_order_items_witness :
  unique_product_ids (products (load_data raw_full))
  /\ unique_customer_ids (raw_customers raw_full)
  /\ Forall (fun r => Fact.product r <> None /\ Fact.customer r <> None)
            (master_df (load_data raw_full))
  /\ length (master_df (load_data raw_full)) = 3%nat
  /\ map (fun r => (Fact.order r, Fact.item r))
         (master_df (load_data raw_full))
     = order_items (raw_orders raw_full) (raw_items raw_full).
Proof.
  assert (unique_product_ids (products (load_data raw_full))) as Hp.
  { intros pid. apply (NoDup_ids_at_most_one ProductsT.product_id).
    simpl. repeat constructor; simpl; intuition discriminate. }
  assert (unique_customer_ids (raw_customers raw_full)) as Hc.
  { intros cid. apply (NoDup_ids_at_most_one Customers.customer_id).
    simpl. repeat constructor; simpl; intuition discriminate. }
  split; [exact Hp|]. split; [exact Hc|]. split.
  { simpl. repeat constructor; discriminate. }
  split; [reflexivity|].
  exact (master_df_keeps_order_items (raw_orders raw_full)
           (raw_items raw_full) (products (load_data raw_full))
           (raw_customers raw_full) Hp Hc).
Defined.

(* ------------------------------------------------------------------ *)
(** ** The two filtered views *)

(** X4: the two filtered tables agree.  Every row of the filtered fact
    table belongs to an order of the filtered orders table, and every
    filtered order has at least one row in the filtered fact table. *)
Theorem filtered_views_agree (raw : RawTables) (start_date end_date : Date) :
  let d := load_data raw in
  (forall r, In r (filtered_df (master_df d) start_date end_date) ->
             In (Fact.order r)
                (filtered_orders (orders d) start_date end_date))
  /\ (forall o, In o (filtered_orders (orders d) start_date end_date) ->
                exists r, In r (filtered_df (master_df d) start_date end_date)
                          /\ Fact.order r = o).
Proof.
  cbn zeta. unfold filtered_df, filtered_orders. cbn [master_df orders load_data].
  split.
  - intros r Hr. apply filter_In in Hr. destruct Hr as [Hr Hd].
    apply filter_In. split; [|exact Hd].
    apply (orders_of_master_df (raw_orders raw) (raw_items raw)
             (translate_products (raw_products raw)
                                 (raw_category_translation raw))
             (raw_customers raw)). now exists r.
  - intros o Ho. apply filter_In in Ho. destruct Ho as [Ho Hd].
    apply (orders_of_master_df (raw_orders raw) (raw_items raw)
             (translate_products (raw_products raw)
                                 (raw_category_translation raw))
             (raw_customers raw)) in Ho.
    destruct Ho as (r & Hr & <-). exists r. split; [|reflexivity].
    apply filter_In. now split.
Qed.

(* ------------------------------------------------------------------ *)
(** ** Overview figures *)

Lemma unique_NoDup {K} `{Key K} (l : list K) : NoDup l -> unique l = l.
Proof.
  induction 1 as [|k t Hk Ht IH]; simpl; [reflexivity|].
  rewrite IH. f_equal. apply forallb_filter_id, forallb_forall.
  intros x Hx. destruct (key_eqb_spec k x) as [->|Hne]; [|reflexivity].
  contradiction.
Qed.

Lemma length_unique_le {K} `{Key K} (l : list K) :
  (length (unique l) <= length l)%nat.
Proof.
  induction l as [|k t IH]; simpl; [lia|].
  pose proof (filter_length_le (fun k' => negb (key_eqb k k')) (unique t)).
  lia.
Qed.

Lemma NoDup_map_filter {X Y} (keep : X -> bool) (g : X -> Y) (xs : list X)
    (Hnd : NoDup (map g xs)) :
  NoDup (map g (filter keep xs)).
Proof.
  revert Hnd. induction xs as [|x t IH]; simpl; intros Hn; [constructor|].
  inversion Hn as [|y l' Hx Ht]; subst.
  destruct (keep x); [|now apply IH]. simpl. constructor; [|now apply IH].
  intros Hin. apply Hx. apply in_map_iff in Hin.
  destruct Hin as (z & Hz & Hin). apply filter_In in Hin.
  apply in_map_iff. exists z. split; [exact Hz|apply Hin].
Qed.

(** X5: the order count of the Overview never exceeds the number of
    filtered order rows, and when [order_id] is a unique key of the orders
    table it is that number. *)
Theorem total_orders_counts_rows (orders : list Orders.row)
    (start_date end_date : Date) :
  NoDup (map Orders.order_id orders) ->
  total_orders (filtered_orders orders start_date end_date)
  = length (filtered_orders orders start_date end_date)
  /\ forall fo, (total_orders fo <= length fo)%nat.
Proof.
  intros Hn. unfold total_orders, nunique. split.
  - rewrite dropna_map_Some, unique_NoDup, length_map; [reflexivity|].
    unfold filtered_orders. now apply NoDup_map_filter.
  - intros fo. rewrite dropna_map_Some.
    pose proof (length_unique_le (map Orders.order_id fo)) as Hle.
    now rewrite length_map in Hle.
Qed.

Lemma total_orders_counts_rows_witness :
  NoDup (map Orders.order_id (raw_orders raw_scenario))
  /\ total_orders (filtered_orders (raw_orders raw_scenario) 17532 17562)
     = 2%nat.
Proof.
  assert (NoDup (map Orders.order_id (raw_orders raw_scenario))) as Hn.
  { simpl. repeat constructor; simpl; intuition discriminate. }
  split; [exact Hn|].
  exact (proj1 (total_orders_counts_rows (raw_orders raw_scenario)
                                          17532 17562 Hn)).
Defined.

Lemma length_filter_out_member {K} `{Key K} (k : K) (u : list K) :
  NoDup u -> In k u ->
  S (length (filter (fun k' => negb (key_eqb k k')) u)) = length u.
Proof.
  induction 1 as [|h t Hh Ht IH]; intros Hin; [destruct Hin|].
  cbn [filter]. destruct (key_eqb_spec k h) as [->|Hne]; cbn [negb length].
  - f_equal. f_equal. apply forallb_filter_id, forallb_forall. intros x Hx.
    destruct (key_eqb_spec h x) as [->|]; [contradiction|reflexivity].
  - destruct Hin as [->|Hin]; [contradiction|]. f_equal. now apply IH.
Qed.

(** X6: an order that shows up twice in the filtered orders table is
    counted once. *)
Theorem total_orders_ignores_repeats (o : Orders.row)
    (fo : list Orders.row) :
  In o fo -> total_orders (o :: fo) = total_orders fo.
Proof.
  intros Ho. unfold total_orders, nunique. rewrite !dropna_map_Some.
  cbn [map unique length].
  apply length_filter_out_member; [apply NoDup_unique|].
  apply In_unique, in_map_iff. now exists o.
Qed.

Lemma total_orders_ignores_repeats_witness :
  In order_o1 [order_o1] /\ total_orders [order_o1; order_o1] = 1%nat.
Proof.
  assert (In order_o1 [order_o1]) as Hin by (now left).
  split; [exact Hin|].
  exact (total_orders_ignores_repeats order_o1 [order_o1] Hin).
Defined.

(** X8: the mean delivery time of the Overview is null (NaN) exactly when
    the table behind the delivery histogram is empty, that is when no
    filtered order has both a purchase and a delivery timestamp. *)
Theorem avg_delivery_days_null_iff (fo : list Orders.row) :
  avg_delivery_days fo = None <-> df_delivery fo = [].
Proof.
  unfold avg_delivery_days, df_delivery, mean_skipna, dropna.
  induction fo as [|o t IH]; [split; reflexivity|].
  cbn [map flat_map filter].
  destruct (delivery_days o) as [n|]; cbn [option_map notnull app].
  - split; discriminate.
  - exact IH.
Qed.

(* ------------------------------------------------------------------ *)
(** ** The default date range *)

Lemma fold_min_le (x : Z) (rest : list Z) (t : Z) :
  In t (x :: rest) -> fold_right Z.min x rest <= t.
Proof.
  induction rest as [|h u IH]; simpl.
  - intros [->|[]]. lia.
  - intros [->|[->|Hin]].
    + specialize (IH (or_introl eq_refl)). lia.
    + lia.
    + specialize (IH (or_intror Hin)). lia.
Qed.

Lemma fold_max_ge (x : Z) (rest : list Z) (t : Z) :
  In t (x :: rest) -> t <= fold_right Z.max x rest.
Proof.
  induction rest as [|h u IH]; simpl.
  - intros [->|[]]. lia.
  - intros [->|[->|Hin]].
    + specialize (IH (or_introl eq_refl)). lia.
    + lia.
    + specialize (IH (or_intror Hin)). lia.
Qed.

Lemma series_min_le (l : list (option Timestamp)) (m t : Timestamp) :
  series_min l = Some m -> In (Some t) l -> m <= t.
Proof.
  unfold series_min. intros Hm Hin. apply In_dropna in Hin.
  destruct (dropna l) as [|x rest]; [discriminate|].
  injection Hm as <-. now apply fold_min_le.
Qed.

Lemma series_max_ge (l : list (option Timestamp)) (m t : Timestamp) :
  series_max l = Some m -> In (Some t) l -> t <= m.
Proof.
  unfold series_max. intros Hm Hin. apply In_dropna in Hin.
  destruct (dropna l) as [|x rest]; [discriminate|].
  injection Hm as <-. now apply fold_max_ge.
Qed.

Lemma dt_date_mono (t1 t2 : Timestamp) : t1 <= t2 -> dt_date t1 <= dt_date t2.
Proof. intros H. apply Z.div_le_mono; [exact NS_PER_DAY_pos|exact H]. Qed.

(** X9: with the bounds the sidebar proposes by default, the dates of the
    earliest and of the latest purchase in the fact table, the filter keeps
    every fact row that has a purchase timestamp. *)
Theorem default_range_keeps_all (master : list Fact.row)
    (start_date end_date : Date) :
  min_date master = Some start_date ->
  max_date master = Some end_date ->
  forall r, In r master -> Fact.order_purchase_timestamp r <> None ->
            In r (filtered_df master start_date end_date).
Proof.
  unfold min_date, max_date. intros Hmin Hmax r Hr Hts.
  destruct (series_min _) as [lo|] eqn:Elo; [|discriminate].
  destruct (series_max _) as [hi|] eqn:Ehi; [|discriminate].
  injection Hmin as <-. injection Hmax as <-.
  unfold filtered_df. apply filter_In. split; [exact Hr|].
  destruct (Fact.order_purchase_timestamp r) as [t|] eqn:Et;
    [|now destruct Hts].
  assert (In (Some t) (map Fact.order_purchase_timestamp master)) as Hin.
  { apply in_map_iff. now exists r. }
  cbn [in_date_range]. apply andb_true_iff. rewrite !Z.leb_le. split.
  - apply dt_date_mono. eapply series_min_le; eassumption.
  - apply dt_date_mono. eapply series_max_ge; eassumption.
Qed.

Lemma default_range_keeps_all_witness :
  min_date (master_df (load_data raw_scenario)) = Some 17536
  /\ max_date (master_df (load_data raw_scenario)) = Some 17563
  /\ length (filtered_df (master_df (load_data raw_scenario)) 17536 17563)
     = 3%nat
  /\ forall r, In r (master_df (load_data raw_scenario)) ->
               Fact.order_purchase_timestamp r <> None ->
               In r (filtered_df (master_df (load_data raw_scenario))
                                 17536 17563).
Proof.
  split; [reflexivity|]. split; [reflexivity|]. split; [reflexivity|].
  exact (default_range_keeps_all (master_df (load_data raw_scenario))
           17536 17563 eq_refl eq_refl).
Defined.

(** X10: an empty fact table, or one without any purchase timestamp, has
    no default range: both bounds are null. *)
Theorem default_range_null_iff (master : list Fact.row) :
  (min_date master = None
   <-> forall r, In r master -> Fact.order_purchase_timestamp r = None)
  /\ (max_date master = None <-> min_date master = None).
Proof.
  unfold min_date, max_date, series_min, series_max.
  assert (dropna (map Fact.order_purchase_timestamp master) = []
          <-> forall r, In r master -> Fact.order_purchase_timestamp r = None)
    as Hd.
  { split.
    - intros E r Hr.
      destruct (Fact.order_purchase_timestamp r) as [t|] eqn:Et;
        [|reflexivity].
      assert (In t (dropna (map Fact.order_purchase_timestamp master))) as Hin.
      { apply In_dropna, in_map_iff. now exists r. }
      rewrite E in Hin. destruct Hin.
    - intros Hall.
      destruct (dropna (map Fact.order_purchase_timestamp master))
        as [|t u] eqn:E; [reflexivity|].
      assert (In t (dropna (map Fact.order_purchase_timestamp master))) as Hin
        by (rewrite E; now left).
      apply In_dropna, in_map_iff in Hin. destruct Hin as (r & Hr & Hin).
      rewrite (Hall r Hin) in Hr. discriminate. }
  destruct (dropna (map Fact.order_purchase_timestamp master)) as [|t u].
  - split; [|split; reflexivity]. split; [intros _; now apply Hd|reflexivity].
  - split; [|split; discriminate]. split; [discriminate|].
    intros Hall. apply Hd in Hall. discriminate.
Qed.

(* ------------------------------------------------------------------ *)
(** ** Nothing falls outside the weekday table *)

Lemma dt_day_name_in_day_order (t : Timestamp) : In (dt_day_name t) day_order.
Proof.
  unfold dt_day_name. apply nth_In.
  assert (0 <= (dt_date t + 3) mod 7 < 7) as Hm by (apply Z.mod_pos_bound; lia).
  change (length day_order) with 7%nat. lia.
Qed.

(** X12: every fact row that has a purchase timestamp falls in one of the
    seven slots of the Sales-by-day table: the slot of its weekday is not
    null and carries the sum over the rows of that weekday, so re-indexing
    on the fixed list of weekday names drops no group. *)
Theorem weekday_slot_of_every_sale (fdf : list Fact.row) (r : Fact.row)
    (t : Timestamp) :
  In r fdf ->
  Fact.order_purchase_timestamp r = Some t ->
  In (dt_day_name t) day_order
  /\ In r (group Fact.day_of_week (dt_day_name t) fdf)
  /\ In (dt_day_name t,
         Some (sum_skipna
                 (map Fact.price
                      (group Fact.day_of_week (dt_day_name t) fdf))))
        (sales_by_day fdf).
Proof.
  intros Hr Ht.
  assert (Fact.day_of_week r = Some (dt_day_name t)) as Hd
    by (unfold Fact.day_of_week; now rewrite Ht).
  assert (In r (group Fact.day_of_week (dt_day_name t) fdf)) as Hg.
  { unfold group. apply filter_In. split; [exact Hr|].
    now apply opt_eqb_eq. }
  split; [apply dt_day_name_in_day_order|]. split; [exact Hg|].
  unfold sales_by_day, reindex. apply in_map_iff.
  exists (dt_day_name t). split; [|apply dt_day_name_in_day_order].
  f_equal. rewrite lookup_groupby_sum.
  destruct (group Fact.day_of_week (dt_day_name t) fdf);
    [destruct Hg|reflexivity].
Qed.

Lemma weekday_slot_of_every_sale_witness :
  In {| Fact.order := order_o1;
        Fact.item := Some (mk_item "o1" "p1" 10%Q);
        Fact.product := nth_error (products (load_data raw_full)) 0;
        Fact.customer := nth_error (raw_customers raw_full) 0 |}
     (filtered_df (master_df (load_data raw_full))
                  day_2018_01_05 day_2018_01_05)
  /\ In ("Friday"%string, Some (10 + (5 + (7 + 0)))%Q)
        (sales_by_day (filtered_df (master_df (load_data raw_full))
                                   day_2018_01_05 day_2018_01_05)).
Proof.
  assert (In {| Fact.order := order_o1;
                Fact.item := Some (mk_item "o1" "p1" 10%Q);
                Fact.product :=
                  nth_error (products (load_data raw_full)) 0;
                Fact.customer := nth_error (raw_customers raw_full) 0 |}
             (filtered_df (master_df (load_data raw_full))
                          day_2018_01_05 day_2018_01_05)) as Hin
    by (now left).
  split; [exact Hin|].
  exact (proj2 (proj2 (weekday_slot_of_every_sale _ _
                         (at_day day_2018_01_05 (10 * NS_PER_HOUR))
                         Hin eq_refl))).
Defined.

(* ------------------------------------------------------------------ *)
(** ** Order of the group-by results *)

Lemma insert_key_sorted_Z (k : Z) (l : list Z) :
  StronglySorted Z.le l -> StronglySorted Z.le (insert_key k l).
Proof.
  induction 1 as [|h t Hs IH Hall]; simpl.
  - repeat constructor.
  - destruct (Z.leb_spec k h) as [Hle|Hgt].
    + constructor; [now constructor|]. constructor; [exact Hle|].
      eapply Forall_impl; [|exact Hall]. intros b Hb. simpl in Hb. lia.
    + constructor; [exact IH|].
      eapply Permutation_Forall;
        [apply Permutation_sym, insert_key_perm|].
      constructor; [lia|exact Hall].
Qed.

Lemma sort_keys_sorted_Z (l : list Z) : StronglySorted Z.le (sort_keys l).
Proof.
  induction l as [|k t IH]; simpl; [constructor|].
  now apply insert_key_sorted_Z.
Qed.

Lemma sorted_nodup_strict (l : list Z) :
  StronglySorted Z.le l -> NoDup l -> StronglySorted Z.lt l.
Proof.
  induction 1 as [|h t Hs IH Hall]; intros Hn; [constructor|].
  inversion Hn as [|h' t' Hh Ht]; subst. constructor; [now apply IH|].
  rewrite Forall_forall in *. intros x Hx. specialize (Hall x Hx).
  assert (x <> h) by (intros ->; contradiction). lia.
Qed.

Lemma groupby_sum_keys {A K} `{Key K} (key : A -> option K)
    (val : A -> option Q) (rows : list A) :
  map fst (groupby_sum key val rows) = group_keys key rows.
Proof. unfold groupby_sum. rewrite map_map. cbn [fst]. apply map_id. Qed.




(* ------------------------------------------------------------------ *)
(** ** Value counts *)

Lemma Zsum_perm (l l' : list Z) : Permutation l l' -> Zsum l = Zsum l'.
Proof. induction 1; simpl; lia. Qed.

Lemma Zsum_map_plus {A} (f g : A -> Z) (l : list A) :
  Zsum (map (fun x => f x + g x) l) = Zsum (map f l) + Zsum (map g l).
Proof. induction l as [|x t IH]; simpl; lia. Qed.

Lemma Zsum_zeros {A} (l : list A) : Zsum (map (fun _ => 0) l) = 0.
Proof. induction l as [|x t IH]; simpl; lia. Qed.

Lemma Zsum_indicator_absent {K} `{Key K} (k0 : K) (ks : list K) :
  ~ In k0 ks -> Zsum (map (fun k => if key_eqb k0 k then 1 else 0) ks) = 0.
Proof.
  induction ks as [|h t IH]; intros Hn; simpl; [reflexivity|].
  destruct (key_eqb_spec k0 h) as [->|Hne].
  - exfalso. apply Hn. now left.
  - rewrite IH; [lia|]. intros Hin. apply Hn. now right.
Qed.

Lemma Zsum_indicator {K} `{Key K} (k0 : K) (ks : list K) :
  NoDup ks -> In k0 ks ->
  Zsum (map (fun k => if key_eqb k0 k then 1 else 0) ks) = 1.
Proof.
  induction 1 as [|h t Hh Ht IH]; intros Hin; [destruct Hin|]. simpl.
  destruct (key_eqb_spec k0 h) as [->|Hne].
  - rewrite Zsum_indicator_absent by exact Hh. lia.
  - destruct Hin as [->|Hin]; [contradiction|]. rewrite IH by exact Hin. lia.
Qed.

Lemma count_eq_cons {K} `{Key K} (k : K) (c : option K)
    (col : list (option K)) :
  count_eq k (c :: col)
  = (if opt_eqb c (Some k) then 1 else 0) + count_eq k col.
Proof.
  unfold count_eq. cbn [filter].
  destruct (opt_eqb c (Some k)); cbn [length]; lia.
Qed.

(** The counts over a duplicate-free list of values that covers the column
    add up to the number of non-null cells. *)
Lemma counts_total {K} `{Key K} (ks : list K) (col : list (option K)) :
  NoDup ks ->
  (forall k, In (Some k) col -> In k ks) ->
  Zsum (map (fun k => count_eq k col) ks) = Z.of_nat (length (dropna col)).
Proof.
  intros Hn. induction col as [|c t IH]; intros Hcov.
  - apply Zsum_zeros.
  - rewrite (map_ext _ _ (fun k => count_eq_cons k c t)).
    rewrite Zsum_map_plus, IH by (intros k Hk; apply Hcov; now right).
    destruct c as [k0|]; cbn [opt_eqb].
    + rewrite (Zsum_indicator k0 ks Hn) by (apply Hcov; now left).
      unfold dropna. cbn [flat_map app length]. lia.
    + rewrite Zsum_zeros. unfold dropna. cbn [flat_map app]. lia.
Qed.

Lemma value_counts_total (S : Sorter) {K} `{Key K} (col : list (option K)) :
  Zsum (map snd (value_counts S col)) = Z.of_nat (length (dropna col)).
Proof.
  unfold value_counts.
  rewrite (Zsum_perm _ _ (Permutation_map snd (sort_desc_perm S _ _ _))).
  rewrite map_map. cbn [snd].
  apply counts_total; [apply NoDup_unique|].
  intros k Hk. now apply In_unique, In_dropna.
Qed.

Lemma value_counts_keys (S : Sorter) {K} `{Key K} (col : list (option K)) :
  Permutation (map fst (value_counts S col)) (unique (dropna col)).
Proof.
  unfold value_counts.
  rewrite (Permutation_map fst (sort_desc_perm S _ _ _)).
  rewrite map_map. cbn [fst]. now rewrite map_id.
Qed.

(** X14: the counts of the review-score distribution add up to the number
    of relevant reviews, and the counts by payment type to the number of
    relevant payments: every review and every payment of a filtered order
    is counted once. *)
Theorem distribution_counts_add_up (S : Sorter)
    (reviews : list Reviews.row) (payments : list Payments.row)
    (fo : list Orders.row) :
  Zsum (map snd (review_dist S reviews fo))
  = Z.of_nat (length (relevant_reviews reviews fo))
  /\ Zsum (map snd (payment_counts S payments fo))
     = Z.of_nat (length (relevant_payments payments fo)).
Proof.
  split.
  - unfold review_dist.
    rewrite (Zsum_perm _ _ (Permutation_map snd (sort_index_perm _))).
    now rewrite value_counts_total, dropna_map_Some, length_map.
  - unfold payment_counts.
    now rewrite value_counts_total, dropna_map_Some, length_map.
Qed.

Lemma insert_by_key_fst {K V} `{Key K} (e : K * V) (l : list (K * V)) :
  map fst (insert_by_key e l) = insert_key (fst e) (map fst l).
Proof.
  induction l as [|h t IH]; simpl; [reflexivity|].
  destruct (key_leb (fst e) (fst h)); simpl; [reflexivity|]. now rewrite IH.
Qed.

Lemma sort_index_fst {K V} `{Key K} (s : list (K * V)) :
  map fst (sort_index s) = sort_keys (map fst s).
Proof.
  induction s as [|e t IH]; simpl; [reflexivity|].
  now rewrite insert_by_key_fst, IH.
Qed.

(** X15: the review-score distribution lists each score that occurs once,
    in increasing order of the score, whatever order the counting put them
    in. *)
Theorem review_dist_by_score (S : Sorter) (reviews : list Reviews.row)
    (fo : list Orders.row) :
  StronglySorted Z.lt (map fst (review_dist S reviews fo))
  /\ forall s, In s (map fst (review_dist S reviews fo))
               <-> exists r, In r (relevant_reviews reviews fo)
                             /\ Reviews.review_score r = s.
Proof.
  unfold review_dist. rewrite sort_index_fst. split.
  - apply sorted_nodup_strict; [apply sort_keys_sorted_Z|].
    eapply Permutation_NoDup; [apply Permutation_sym, sort_keys_perm|].
    eapply Permutation_NoDup;
      [apply Permutation_sym, value_counts_keys|apply NoDup_unique].
  - intros s.
    rewrite (Permutation_In_iff _ _ s (sort_keys_perm _)).
    rewrite (Permutation_In_iff _ _ s (value_counts_keys S _)).
    rewrite In_unique, dropna_map_Some, in_map_iff.
    split; intros (r & A1 & A2); exists r; auto.
Qed.

(* ------------------------------------------------------------------ *)
(** ** Customer demographics *)

Lemma StronglySorted_firstn {A} (R : A -> A -> Prop) (n : nat) (l : list A) :
  StronglySorted R l -> StronglySorted R (firstn n l).
Proof.
  intros Hs. rewrite <- (firstn_skipn n l) in Hs.
  now apply StronglySorted_app_inv in Hs.
Qed.

Lemma In_firstn {A} (n : nat) (l : list A) (x : A) :
  In x (firstn n l) -> In x l.
Proof.
  intros Hx. rewrite <- (firstn_skipn n l). apply in_or_app. now left.
Qed.

Lemma count_eq_map {A K} `{Key K} (col : A -> option K) (rows : list A)
    (k : K) :
  count_eq k (map col rows) = Z.of_nat (length (group col k rows)).
Proof.
  unfold count_eq, group. now rewrite filter_map_swap, length_map.
Qed.

(** The ten most frequent values of a column of the fact table. *)
Lemma top_10_counts (S : Sorter) (col : Fact.row -> option string)
    (fdf : list Fact.row) :
  let top := firstn 10 (value_counts S (map col fdf)) in
  (length top <= 10)%nat
  /\ (forall s c, In (s, c) top ->
                  c = Z.of_nat (length (group col s fdf)) /\ 0 < c)
  /\ StronglySorted (fun a b => snd b <= snd a) top
  /\ exists rest,
       Permutation (top ++ rest) (value_counts S (map col fdf))
       /\ forall a b, In a top -> In b rest -> snd b <= snd a.
Proof.
  cbn zeta.
  assert (StronglySorted (fun a b : string * Z => snd b <= snd a)
                         (value_counts S (map col fdf))) as Hs.
  { unfold value_counts.
    pose proof (sort_desc_sorted S _ (fun e : string * Z => inject_Z (snd e))
                  (map (fun k => (k, count_eq k (map col fdf)))
                       (unique (dropna (map col fdf))))) as H.
    induction H as [|a l Hl IH Hall]; constructor; [exact IH|].
    eapply Forall_impl; [|exact Hall]. intros b Hb. cbv beta in Hb.
    now rewrite Zle_Qle. }
  split; [apply firstn_le_length|]. split; [|split].
  - intros s c Hin. apply In_firstn, In_value_counts in Hin.
    now rewrite count_eq_map in Hin.
  - now apply StronglySorted_firstn.
  - exists (skipn 10 (value_counts S (map col fdf))).
    rewrite firstn_skipn. split; [reflexivity|].
    rewrite <- (firstn_skipn 10 (value_counts S (map col fdf))) in Hs.
    now apply StronglySorted_app_inv in Hs.
Qed.

(** X16: the state and city tables of the Customer page have at most ten
    rows, in non-increasing order of the count; a count is the number of
    fact rows (one per order item, not one per order) of that state or
    city, and no state or city left out has more rows than one that is
    shown. *)
Theorem top_states_and_cities (S : Sorter) (fdf : list Fact.row) :
  ((length (state_counts S fdf) <= 10)%nat
   /\ (forall s c, In (s, c) (state_counts S fdf) ->
         c = Z.of_nat (length (group Fact.customer_state s fdf)) /\ 0 < c)
   /\ StronglySorted (fun a b => snd b <= snd a) (state_counts S fdf)
   /\ exists rest,
        Permutation (state_counts S fdf ++ rest)
                    (value_counts S (map Fact.customer_state fdf))
        /\ forall a b, In a (state_counts S fdf) -> In b rest ->
                       snd b <= snd a)
  /\ ((length (city_counts S fdf) <= 10)%nat
      /\ (forall s c, In (s, c) (city_counts S fdf) ->
            c = Z.of_nat (length (group Fact.customer_city s fdf)) /\ 0 < c)
      /\ StronglySorted (fun a b => snd b <= snd a) (city_counts S fdf)
      /\ exists rest,
           Permutation (city_counts S fdf ++ rest)
                       (value_counts S (map Fact.customer_city fdf))
           /\ forall a b, In a (city_counts S fdf) -> In b rest ->
                          snd b <= snd a).
Proof.
  split.
  - exact (top_10_counts S Fact.customer_state fdf).
  - exact (top_10_counts S Fact.customer_city fdf).
Qed.

(** An order with two items counts twice for its customer's state. *)
Example state_counts_item_level :
  let raw :=
    {| raw_orders := [order_o1];
       raw_items := [mk_item "o1" "p1" 10%Q; mk_item "o1" "p2" 5%Q];
       raw_products := []; raw_payments := []; raw_reviews := [];
       raw_customers :=
         [ {| Customers.customer_id := "c1";
              Customers.customer_city := "sao paulo";
              Customers.customer_state := "SP" |} ];
       raw_category_translation := [] |} in
  state_counts stable_sorter (master_df (load_data raw)) = [("SP"%string, 2)].
Proof. reflexivity. Qed.

(* ------------------------------------------------------------------ *)
(** ** Payment analysis *)

(** X17: the payments behind the value box plot are exactly the payments
    of a filtered order whose value is strictly below 1000; a payment of
    exactly 1000 is left out. *)
Theorem safe_payments_spec (payments : list Payments.row)
    (fo : list Orders.row) (p : Payments.row) :
  In p (safe_payments payments fo)
  <-> In p payments
      /\ (exists o, In o fo /\ Orders.order_id o = Payments.order_id p)
      /\ (Payments.payment_value p < 1000)%Q.
Proof.
  unfold safe_payments, relevant_payments.
  rewrite !filter_In, isin_order_in, order_in_spec, Qlt_alt.
  destruct (Payments.payment_value p ?= 1000)%Q;
    split; intros H; repeat split; try apply H;
    destruct H as (_ & _ & H) || destruct H as (_ & H); discriminate.
Qed.

(* ------------------------------------------------------------------ *)
(** ** Category translation: the matching case *)

(** X18: a product whose raw category has exactly one translation entry
    comes out of [load_data] once, with the English name of that entry, or
    with the raw name when the entry's English name is null. *)
Theorem category_translated (raw : RawTables) (p0 : Products.row)
    (t : Translation.row) :
  In p0 (raw_products raw) ->
  translations_of (raw_category_translation raw)
                  (Products.product_category_name p0) = [t] ->
  let english := fillna (Translation.product_category_name_english t)
                        (Products.product_category_name p0) in
  In {| ProductsT.base := p0;
        ProductsT.product_category_name_english := english |}
     (products (load_data raw))
  /\ forall p, In p (products (load_data raw)) -> ProductsT.base p = p0 ->
               ProductsT.product_category_name_english p = english.
Proof.
  intros Hin Ht english. cbn [products load_data].
  unfold translate_products, translations_of in *.
  assert (forall r, In (p0, r)
                       (merge_left Products.product_category_name
                          Translation.product_category_name
                          (raw_products raw) (raw_category_translation raw))
                    <-> r = Some t) as Hm.
  { intros r. rewrite merge_left_In. split.
    - intros [_ Hr]. destruct r as [y|].
      + destruct Hr as [Hy Hk].
        assert (In y [t]) as Hyt.
        { rewrite <- Ht. apply filter_In. split; [exact Hy|].
          apply opt_eqb_eq. now symmetry. }
        destruct Hyt as [->|[]]. reflexivity.
      + exfalso. assert (In t [t]) as Hin' by (now left).
        rewrite <- Ht in Hin'. apply filter_In in Hin'.
        destruct Hin' as [Hin' Hk]. apply opt_eqb_eq in Hk.
        apply (Hr t Hin'). now symmetry.
    - intros ->. split; [exact Hin|].
      assert (In t [t]) as Hin' by (now left).
      rewrite <- Ht in Hin'. apply filter_In in Hin'.
      destruct Hin' as [Hin' Hk]. apply opt_eqb_eq in Hk.
      split; [exact Hin'|now symmetry]. }
  split.
  - apply in_map_iff. exists (p0, Some t). split; [reflexivity|].
    now apply Hm.
  - intros p Hp Hb. apply in_map_iff in Hp.
    destruct Hp as ([q r] & <- & Hqr). simpl in Hb. subst q.
    apply Hm in Hqr. now subst r.
Qed.

Lemma category_translated_witness :
  In (mk_product "p1" (Some "beleza_saude"%string))
     (raw_products raw_translated)
  /\ map ProductsT.product_category_name_english
         (products (load_data raw_translated))
     = [Some "health_beauty"%string]
  /\ In {| ProductsT.base := mk_product "p1" (Some "beleza_saude"%string);
           ProductsT.product_category_name_english :=
             Some "health_beauty"%string |}
        (products (load_data raw_translated)).
Proof.
  assert (In (mk_product "p1" (Some "beleza_saude"%string))
             (raw_products raw_translated)) as Hin by (now left).
  split; [exact Hin|]. split; [reflexivity|].
  exact (proj1 (category_translated raw_translated _
                  {| Translation.product_category_name :=
                       Some "beleza_saude"%string;
                     Translation.product_category_name_english :=
                       Some "health_beauty"%string |}
                  Hin eq_refl)).
Defined.

Lemma filter_map_fst {A B} (p : A -> bool) (l : list (A * B)) :
  map fst (filter (fun x => p (fst x)) l) = filter p (map fst l).
Proof.
  induction l as [|x t IH]; simpl; [reflexivity|].
  destruct (p (fst x)); simpl; now rewrite IH.
Qed.

Lemma translate_products_base (products : list Products.row)
    (category_translation : list Translation.row) :
  map ProductsT.base (translate_products products category_translation)
  = map fst (merge_left Products.product_category_name
                        Translation.product_category_name
                        products category_translation).
Proof.
  unfold translate_products. rewrite map_map. apply map_ext.
  now intros [p t].
Qed.

(** X19: when no raw category has two translation entries, the
    translation step returns the products themselves, in their order, each
    once; product ids that were unique stay unique, which is what the join
    of the fact table with the products relies on. *)
Theorem translate_products_keeps_products (products : list Products.row)
    (category_translation : list Translation.row) :
  (forall p, In p products ->
     (length (translations_of category_translation
                              (Products.product_category_name p)) <= 1)%nat) ->
  map ProductsT.base (translate_products products category_translation)
  = products
  /\ (NoDup (map Products.product_id products) ->
      unique_product_ids (translate_products products category_translation)).
Proof.
  intros Hu.
  assert (map ProductsT.base
              (translate_products products category_translation) = products)
    as Hb.
  { rewrite translate_products_base. apply merge_left_fst_unique.
    intros p Hp. apply (Hu p Hp). }
  split; [exact Hb|]. intros Hn pid.
  assert (length (filter (fun p => String.eqb pid (ProductsT.product_id p))
                    (translate_products products category_translation))
          = length (filter (fun p => String.eqb pid (Products.product_id p))
                           products)) as ->.
  { rewrite <- Hb at 2. rewrite filter_map_swap, length_map. reflexivity. }
  clear - Hn. induction products as [|p t IH]; simpl; [lia|].
  inversion Hn as [|x l Hx Hl]; subst. specialize (IH Hl).
  destruct (String.eqb_spec pid (Products.product_id p)) as [->|Hne];
    [|exact IH].
  simpl.
  replace (filter _ t) with (@nil Products.row); [simpl; lia|].
  symmetry. apply filter_nil_iff. intros q Hq.
  destruct (String.eqb_spec (Products.product_id p) (Products.product_id q))
    as [E|]; [|reflexivity].
  exfalso. apply Hx. rewrite E. now apply in_map.
Qed.

Lemma translate_products_keeps_products_witness :
  (forall p, In p (raw_products raw_translated) ->
     (length (translations_of (raw_category_translation raw_translated)
                (Products.product_category_name p)) <= 1)%nat)
  /\ map ProductsT.base (products (load_data raw_translated))
     = raw_products raw_translated.
Proof.
  assert (forall p, In p (raw_products raw_translated) ->
            (length (translations_of (raw_category_translation raw_translated)
                       (Products.product_category_name p)) <= 1)%nat) as Hu.
  { intros p [<-|[]]. simpl. lia. }
  split; [exact Hu|].
  exact (proj1 (translate_products_keeps_products _ _ Hu)).
Defined.

(** A category with two translation entries doubles its products, and with
    them the fact rows and the revenue of their items. *)
Example duplicate_translation_doubles_revenue :
  let entry := {| Translation.product_category_name :=
                    Some "beleza_saude"%string;
                  Translation.product_category_name_english :=
                    Some "health_beauty"%string |} in
  let raw :=
    {| raw_orders := raw_orders raw_translated;
       raw_items := raw_items raw_translated;
       raw_products := raw_products raw_translated;
       raw_payments := []; raw_reviews := []; raw_customers := [];
       raw_category_translation := [entry; entry] |} in
  length (master_df (load_data raw)) = 2%nat
  /\ (total_revenue (master_df (load_data raw)) == 20)%Q.
Proof. split; reflexivity. Qed.

(* ------------------------------------------------------------------ *)
(** ** Delivery analysis *)

(** X20: when [product_id] is a unique key of the products, the rows of
    the freight scatter plot are, item for item and in the items' order,
    the items of the filtered orders: the join with the products drops or
    repeats none. *)
Theorem relevant_items_are_items (items : list Items.row)
    (products : list ProductsT.row) (fo : list Orders.row) :
  unique_product_ids products ->
  map fst (relevant_items items products fo)
  = filter (fun i => order_in fo (Items.order_id i)) items.
Proof.
  intros Hu. unfold relevant_items.
  rewrite (filter_ext _ (fun ip : Items.row * option ProductsT.row =>
                           order_in fo (Items.order_id (fst ip))))
    by (intros ip; apply isin_order_in).
  rewrite (filter_map_fst (fun i => order_in fo (Items.order_id i))).
  f_equal. unfold items_products. apply merge_left_fst_unique.
  intros i _. unfold matches. cbn [opt_eqb key_eqb string_Key]. apply Hu.
Qed.

Lemma relevant_items_are_items_witness :
  unique_product_ids (products (load_data raw_full))
  /\ Forall (fun ip : Items.row * option ProductsT.row => snd ip <> None)
            (relevant_items (raw_items raw_full)
               (products (load_data raw_full))
               (filtered_orders (raw_orders raw_full)
                                day_2018_01_05 day_2018_01_05))
  /\ map fst (relevant_items (raw_items raw_full)
                 (products (load_data raw_full))
                 (filtered_orders (raw_orders raw_full)
                                  day_2018_01_05 day_2018_01_05))
     = raw_items raw_full.
Proof.
  assert (unique_product_ids (products (load_data raw_full))) as Hp.
  { intros pid. apply (NoDup_ids_at_most_one ProductsT.product_id).
    simpl. repeat constructor; simpl; intuition discriminate. }
  split; [exact Hp|]. split.
  { simpl. repeat constructor; discriminate. }
  exact (relevant_items_are_items (raw_items raw_full)
           (products (load_data raw_full))
           (filtered_orders (raw_orders raw_full)
                            day_2018_01_05 day_2018_01_05) Hp).
Defined.

Lemma filter_split_perm {A} (p : A -> bool) (l : list A) :
  Permutation (filter p l ++ filter (fun x => negb (p x)) l) l.
Proof.
  induction l as [|x t IH]; simpl; [constructor|].
  destruct (p x); simpl.
  - now constructor.
  - apply Permutation_sym, Permutation_cons_app, Permutation_sym, IH.
Qed.

Lemma sort_values_desc_perm (S : Sorter) {A} (val : A -> option Q)
    (l : list A) :
  Permutation (sort_values_desc S val l) l.
Proof.
  unfold sort_values_desc.
  rewrite sort_desc_perm. apply (filter_split_perm (fun a => notnull (val a))).
Qed.

(** X21: the mean freight by state lists every state of the filtered fact
    table once, with the mean freight of the rows of that state that carry
    an item; the states with a mean come first, in non-increasing order of
    the mean, and the states whose rows carry no item at all (a null mean)
    come last. *)
Theorem state_freight_order (S : Sorter) (fdf : list Fact.row) :
  (forall s m, In (s, m) (state_freight S fdf)
     <-> (exists r, In r fdf /\ Fact.customer_state r = Some s)
         /\ m = mean_skipna (map Fact.freight_value
                                 (group Fact.customer_state s fdf)))
  /\ NoDup (map fst (state_freight S fdf))
  /\ exists shown nulls,
       state_freight S fdf = shown ++ nulls
       /\ Forall (fun e => snd e <> None) shown
       /\ Forall (fun e => snd e = None) nulls
       /\ StronglySorted (fun a b => (or_zero (snd b) <= or_zero (snd a))%Q)
                         shown.
Proof.
  unfold state_freight.
  set (g := groupby_mean Fact.customer_state Fact.freight_value fdf).
  pose proof (sort_values_desc_perm S (fun e : string * option Q => snd e) g)
    as HP.
  split; [|split].
  - intros s m. rewrite (Permutation_In_iff _ _ (s, m) HP).
    unfold g, groupby_mean. rewrite in_map_iff. split.
    + intros (k & [= -> <-] & Hk). apply In_group_keys in Hk. now split.
    + intros [Hk ->]. exists s. split; [reflexivity|].
      now apply In_group_keys.
  - eapply Permutation_NoDup;
      [apply Permutation_sym, Permutation_map, HP|].
    unfold g, groupby_mean. rewrite map_map. cbn [fst]. rewrite map_id.
    apply NoDup_group_keys.
  - unfold sort_values_desc.
    exists (sort_desc S _ (fun a : string * option Q => or_zero (snd a))
              (filter (fun a => notnull (snd a)) g)),
           (filter (fun a => negb (notnull (snd a))) g).
    split; [reflexivity|]. split; [|split].
    + eapply Permutation_Forall;
        [apply Permutation_sym, sort_desc_perm|].
      apply Forall_forall. intros e He. apply filter_In in He.
      destruct He as [_ He]. now destruct (snd e).
    + apply Forall_forall. intros e He. apply filter_In in He.
      destruct He as [_ He]. now destruct (snd e).
    + apply (sort_desc_sorted S _
               (fun a : string * option Q => or_zero (snd a))).
Qed.

(* ------------------------------------------------------------------ *)
(** ** The row count of the fact table *)

Lemma list_sum_cons_eq (x : nat) (l : list nat) :
  list_sum (x :: l) = (x + list_sum l)%nat.
Proof. reflexivity. Qed.

Lemma list_sum_max_1 {A} (n : A -> nat) (l : list A) :
  list_sum (map (fun x => Nat.max 1 (n x)) l)
  = (list_sum (map n l) + length (filter (fun x => Nat.eqb (n x) 0) l))%nat.
Proof.
  induction l as [|x t IH]; [reflexivity|]. cbn [map filter].
  rewrite !list_sum_cons_eq, IH.
  destruct (n x) as [|k]; cbn [Nat.eqb Nat.max length]; lia.
Qed.

Lemma Zsum_of_nat {A} (n : A -> nat) (l : list A) :
  Z.of_nat (list_sum (map n l)) = Zsum (map (fun x => Z.of_nat (n x)) l).
Proof.
  induction l as [|x t IH]; [reflexivity|]. cbn [map].
  rewrite list_sum_cons_eq. cbn [Zsum fold_right].
  fold (Zsum (map (fun x => Z.of_nat (n x)) t)). lia.
Qed.

Lemma items_of_count (items : list Items.row) (o : Orders.row) :
  Z.of_nat (items_of items o)
  = count_eq (Orders.order_id o)
             (map (fun i => Some (Items.order_id i)) items).
Proof.
  unfold items_of, count_eq. rewrite filter_map_swap, length_map.
  do 2 f_equal. apply filter_ext. intros i. cbn [opt_eqb key_eqb string_Key].
  apply String.eqb_sym.
Qed.

(** X22: when [order_id], [product_id] and [customer_id] are unique keys
    and every item belongs to an order of the orders table, the fact table
    has one row per item plus one row per order without items. *)
Theorem master_df_row_count (orders : list Orders.row)
    (items : list Items.row) (products : list ProductsT.row)
    (customers : list Customers.row) :
  NoDup (map Orders.order_id orders) ->
  unique_product_ids products ->
  unique_customer_ids customers ->
  (forall i, In i items ->
             exists o, In o orders /\ Orders.order_id o = Items.order_id i) ->
  length (build_master_df orders items products customers)
  = (length items
     + length (filter (fun o => Nat.eqb (items_of items o) 0) orders))%nat.
Proof.
  intros Hn Hp Hc Hcov.
  rewrite (master_df_length orders items products customers Hp Hc).
  fold (items_of items). rewrite (list_sum_max_1 (items_of items)).
  f_equal. apply Nat2Z.inj. rewrite Zsum_of_nat.
  rewrite (map_ext _ _ (items_of_count items)).
  rewrite <- (map_map Orders.order_id
                (fun k => count_eq k
                            (map (fun i => Some (Items.order_id i)) items))).
  rewrite counts_total.
  - now rewrite dropna_map_Some, length_map.
  - exact Hn.
  - intros k Hk. apply in_map_iff in Hk. destruct Hk as (i & [= <-] & Hi).
    destruct (Hcov i Hi) as (o & Ho & <-). now apply in_map.
Qed.

Lemma master_df_row_count_witness :
  NoDup (map Orders.order_id
             (mk_order "o0" None None :: raw_orders raw_scenario))
  /\ unique_product_ids [] /\ unique_customer_ids []
  /\ length (build_master_df
               (mk_order "o0" None None :: raw_orders raw_scenario)
               (raw_items raw_scenario) [] [])
     = 4%nat.
Proof.
  assert (NoDup (map Orders.order_id
                     (mk_order "o0" None None :: raw_orders raw_scenario)))
    as Hn by (simpl; repeat constructor; simpl; intuition discriminate).
  assert (unique_product_ids []) as Hp by (intros pid; simpl; lia).
  assert (unique_customer_ids []) as Hc by (intros cid; simpl; lia).
  split; [exact Hn|]. split; [exact Hp|]. split; [exact Hc|].
  refine (master_df_row_count
            (mk_order "o0" None None :: raw_orders raw_scenario)
            (raw_items raw_scenario) [] [] Hn Hp Hc _).
  intros i [<-|[<-|[<-|[]]]];
    [exists (nth 0 (raw_orders raw_scenario) order_o1)
    |exists (nth 1 (raw_orders raw_scenario) order_o1)
    |exists (nth 2 (raw_orders raw_scenario) order_o1)];
    (split; [simpl; auto|reflexivity]).
Defined.

(* ------------------------------------------------------------------ *)
(** ** Widening the date range *)

(** X23: widening the date range never removes a row: every fact row and
    every order kept for a range is kept for any range that contains it. *)
Theorem wider_range_keeps_more (master : list Fact.row)
    (orders : list Orders.row) (s e s' e' : Date) :
  s' <= s -> e <= e' ->
  (forall r, In r (filtered_df master s e) -> In r (filtered_df master s' e'))
  /\ (forall o, In o (filtered_orders orders s e) ->
                In o (filtered_orders orders s' e')).
Proof.
  intros Hs He.
  assert (forall ts, in_date_range s e ts = true ->
                     in_date_range s' e' ts = true) as Hw.
  { intros [t|]; [|discriminate]. cbn [in_date_range].
    rewrite !andb_true_iff, !Z.leb_le. lia. }
  unfold filtered_df, filtered_orders.
  split; intros x Hx; apply filter_In in Hx; apply filter_In;
    (split; [apply Hx|apply Hw, Hx]).
Qed.

Lemma wider_range_keeps_more_witness :
  17532 <= 17536 /\ 17536 <= 17562
  /\ In order_o1 (filtered_orders [order_o1] 17532 17562).
Proof.
  assert (17532 <= 17536) as Hs by discriminate.
  assert (17536 <= 17562) as He by discriminate.
  split; [exact Hs|]. split; [exact He|].
  apply (proj2 (wider_range_keeps_more [] [order_o1] 17536 17536
                                       17532 17562 Hs He)).
  now left.
Defined.

(* ------------------------------------------------------------------ *)
(** ** Revenue by category *)

(** X24: when the slider value is at least the number of categories, the
    category table is complete: it is a rearrangement of the revenues of
    all categories, so it names exactly the categories carried by a fact
    row; a fact row without a product, or whose product has a null
    category, is in no category. *)
Theorem category_sales_complete (S : Sorter) (fdf : list Fact.row)
    (top_n : nat) :
  (length (category_revenue fdf) <= top_n)%nat ->
  Permutation (category_sales S fdf top_n) (category_revenue fdf)
  /\ forall c, In c (map fst (category_sales S fdf top_n))
               <-> exists r, In r fdf
                             /\ Fact.product_category_name_english r = Some c.
Proof.
  intros Hlen.
  assert (Permutation (category_sales S fdf top_n) (category_revenue fdf))
    as HP.
  { unfold category_sales. fold (category_revenue fdf).
    rewrite (sort_values_desc_notnull S snd).
    rewrite firstn_all2; [apply sort_desc_perm|].
    now rewrite (Permutation_length (sort_desc_perm S _ snd _)). }
  split; [exact HP|]. intros c.
  rewrite (Permutation_In_iff _ _ c (Permutation_map fst HP)).
  unfold category_revenue. rewrite groupby_sum_keys. apply In_group_keys.
Qed.

Lemma category_sales_complete_witness :
  (length (category_revenue (master_df (load_data raw_tie))) <= 5)%nat
  /\ length (category_sales stable_sorter
                            (master_df (load_data raw_tie)) 5) = 2%nat.
Proof.
  assert (length (category_revenue (master_df (load_data raw_tie))) <= 5)%nat
    as Hlen by (simpl; lia).
  split; [exact Hlen|].
  exact (Permutation_length
           (proj1 (category_sales_complete stable_sorter
                     (master_df (load_data raw_tie)) 5 Hlen))).
Defined.
